(** * The retrieval-and-reflection pipeline of [src/chains.py]

    A shallow embedding of [UnstructuredRAG] ([ingest_docs], [llm_chain],
    [rag_chain], [rag_chain_with_multiturn], [document_search]) and of the
    [StructuredResponse] model, followed by the properties of the pipeline.

    Conventions of the embedding.
    - Python values keep their shape: [str] is [string], [int] is [Z], a list
      is a [list], a keyword dictionary is an association list.
    - Every collaborator the module imports (embedding model, vector store,
      ranker, language model, query rewriter, the judges of the reflection
      module) is a field of the record [World].  A collaborator sees the trace
      of all earlier calls, so that its answers may change from one call to
      the next, and may raise.
    - Effects are threaded by the monad [M]: a heap (the trace of collaborator
      calls and the request's [ReflectionCounter] object) and a result that is
      either a value or a raised exception.  The heap survives a raise, as
      Python's does. *)

From Stdlib Require Import String Ascii List ZArith Lia Bool.
Import ListNotations.

Set Warnings "-register-all".
Local Open Scope string_scope.
Local Open Scope list_scope.

(* ===================================================================== *)
(** ** Python primitives used by the module *)
(* ===================================================================== *)

Module Py.

(** [needle in hay] on [str]: substring test. *)
Fixpoint contains (needle hay : string) : bool :=
  if String.prefix needle hay then true
  else match hay with
       | EmptyString => false
       | String _ rest => contains needle rest
       end.

(** [sep.join(parts)]. *)
Definition join (sep : string) (parts : list string) : string :=
  String.concat sep parts.

(** [s.replace(dq, sq)] for the double quote [dq] (character 34) and the
    single quote [sq] (character 39): every double quote becomes a single
    quote. *)
Definition dquote : ascii := "034"%char.
Definition squote : ascii := "039"%char.

Fixpoint replace_dquote (s : string) : string :=
  match s with
  | EmptyString => EmptyString
  | String c rest =>
      String (if Ascii.eqb c dquote then squote else c) (replace_dquote rest)
  end.

(** [len(l)] as a Python [int]. *)
Definition len {A : Type} (l : list A) : Z := Z.of_nat (List.length l).

(** [l[start:]]: a negative [start] counts from the end and is clamped at
    the front; a non-negative one is clamped at the end. *)
Definition slice_from {A : Type} (start : Z) (l : list A) : list A :=
  let first := if (start <? 0)%Z then Z.max (len l + start) 0
               else Z.min start (len l) in
  skipn (Z.to_nat first) l.

(** Truthiness of a list ([if chat_history:]). *)
Definition truthy {A : Type} (l : list A) : bool :=
  match l with [] => false | _ :: _ => true end.

(** Lookup in a keyword dictionary ([key in data], [data[key]]). *)
Fixpoint get {V : Type} (key : string) (data : list (string * V)) : option V :=
  match data with
  | [] => None
  | (k, v) :: rest => if String.eqb key k then Some v else get key rest
  end.

End Py.

(* ===================================================================== *)
(** ** Exceptions and results *)
(* ===================================================================== *)

(** The exception classes the handlers of the module tell apart.
    [requests.ConnectTimeout] is a subclass of
    [requests.exceptions.ConnectionError]; [ConnectionError] below stands for
    the instances of that class which are not timeouts.  All five are
    subclasses of [Exception]. *)
Inductive ExnClass : Type :=
| ConnectTimeout
| ConnectionError
| ValueError
| APIError (code : Z)
| OtherException.

(** An exception instance: its class and [str(e)]. *)
Record Exn : Type := mkExn { exn_class : ExnClass; exn_str : string }.

(** [class APIError(Exception)], lines 168-175: [code] defaults to 400 and
    the message is handed to [Exception.__init__], so [str(e)] is the
    message. *)
Definition APIError_default_code : Z := 400.

Definition mkAPIError (message : string) (code : option Z) : Exn :=
  mkExn (APIError match code with Some c => c | None => APIError_default_code end)
        message.

Definition api_code (e : Exn) : option Z :=
  match exn_class e with APIError c => Some c | _ => None end.

Inductive result (A : Type) : Type :=
| Ok (a : A)
| Raise (e : Exn).
Arguments Ok {A} a.
Arguments Raise {A} e.

(* ===================================================================== *)
(** ** Data model *)
(* ===================================================================== *)

(** A chat message of the request ([message.role], [message.content]). *)
Record Message : Type := mkMessage { role : string; content : string }.

(** A retrieved document (langchain [Document]). *)
Record Document : Type :=
  mkDocument { page_content : string; metadata : list (string * string) }.

(** A prompt message, as the [(role, content)] tuples of the module. *)
Definition PromptMessage : Type := (string * string)%type.

(** JSON-like values: the [Any] of [parameters: Dict[str, Any]] and of the
    keyword arguments given to [StructuredResponse]. *)
Inductive json : Type :=
| JNull
| JBool (b : bool)
| JInt (z : Z)
| JStr (s : string)
| JArr (items : list json)
| JObj (fields : list (string * json)).

(** [class StructuredResponse(BaseModel)], lines 48-60: exactly three
    fields. *)
Record StructuredResponse : Type := mkStructuredResponse {
  title : string;
  description : string;
  parameters : json
}.

Module Schema.

Definition nullable (ty : string) : json := JArr [JStr ty; JStr "null"].

Definition integer_field (descr : string) (lo hi : Z) : json :=
  JObj [("type", nullable "integer"); ("description", JStr descr);
        ("minimum", JInt lo); ("maximum", JInt hi)].

Definition string_field (descr : string) : json :=
  JObj [("type", nullable "string"); ("description", JStr descr)].

Definition enum_field (descr : string) (values : list string) : json :=
  JObj [("type", nullable "string"); ("description", JStr descr);
        ("enum", JArr (map JStr values))].

(** The default of [parameters], lines 65-135. *)
Definition default_parameters : json :=
  JObj [
    ("type", JStr "object");
    ("properties", JObj [
      ("vGPU_profile",
        JObj [("type", nullable "string");
              ("description", JStr "Exact NVIDIA vGPU profile name found in context documentation (must match documented profiles exactly)");
              ("pattern", JStr "^[A-Z0-9]+-[0-9]+[A-Z]?$")]);
      ("total_CPUs",
        integer_field "Total number of physical CPU cores allocated to the VM host" 1 256);
      ("vCPU_count",
        integer_field "Number of virtual CPUs allocated to the VM guest based on workload requirements" 1 128);
      ("gpu_memory_size",
        integer_field "GPU frame buffer memory in GB assigned to the vGPU profile (must match profile specifications)" 1 128);
      ("video_card_total_memory",
        integer_field "Total video card memory capacity in GB of the physical GPU hardware" 4 200);
      ("system_RAM",
        integer_field "System RAM allocated to the VM in GB based on workload analysis" 8 2048);
      ("storage_capacity",
        integer_field "Hard disk storage capacity in GB required for the workload including OS, model files, and data" 50 10000);
      ("storage_type",
        enum_field "Recommended storage type based on performance requirements"
                   ["SSD"; "NVMe"; "HDD"; "Network Storage"]);
      ("driver_version",
        string_field "Compatible NVIDIA driver version determined from context documentation");
      ("AI_framework",
        string_field "Recommended AI framework or toolkit based on context analysis and workload requirements");
      ("performance_tier",
        enum_field "Performance classification based on workload requirements"
                   ["Entry"; "Standard"; "High Performance"; "Maximum Performance"]);
      ("concurrent_users",
        integer_field "Number of concurrent users the configuration can support" 1 1000)
    ]);
    ("required", JArr [])
  ].

Definition default_title : string := "generate_vgpu_config".

Definition default_description : string :=
  "Generate the recommended vGPU configuration based on workload requirements and hardware specs.".

(** [data.setdefault]-style step of [__init__]: [if key not in data:
    data[key] = v]. *)
Definition set_if_missing (key : string) (v : json) (data : list (string * json))
  : list (string * json) :=
  match Py.get key data with
  | Some _ => data
  | None => data ++ [(key, v)]
  end.

(** Validation of the declared fields by [BaseModel.__init__].  The model
    declares no [model_config], so pydantic's default [extra = 'ignore']
    applies: keywords that name no field are dropped without an error. *)
Definition validation_error : Exn :=
  mkExn OtherException "ValidationError".

Definition validate (data : list (string * json)) : result StructuredResponse :=
  match Py.get "title" data, Py.get "description" data, Py.get "parameters" data with
  | Some (JStr t), Some (JStr d), Some (JObj p) =>
      Ok (mkStructuredResponse t d (JObj p))
  | _, _, _ => Raise validation_error
  end.

(** [StructuredResponse.__init__] on the keyword dictionary [data], lines
    62-145. *)
Definition init (data : list (string * json)) : result StructuredResponse :=
  let data := set_if_missing "parameters" default_parameters data in
  let data := set_if_missing "title" (JStr default_title) data in
  let data := set_if_missing "description" (JStr default_description) data in
  validate data.

End Schema.

(* ===================================================================== *)
(** ** Configuration, collaborators and effects *)
(* ===================================================================== *)

(** The environment variables the module reads, after the parsing the module
    applies to them ([.lower() == "true"], [int(...)]). *)
Record Environ : Type := mkEnviron {
  ENABLE_MULTITURN : bool;
  ENABLE_NEMOTRON_THINKING : bool;
  ENABLE_REFLECTION : bool;
  MAX_REFLECTION_LOOP : Z;
  CONVERSATION_HISTORY : Z
}.

(** The keyword arguments the pipeline inspects: [str(kwargs.get("model"))]
    and the truth values of [enable_reranker] and [enable_query_rewriting]. *)
Record Kwargs : Type := mkKwargs {
  model : string;
  enable_reranker : bool;
  enable_query_rewriting : bool
}.

(** One call to a collaborator, with the arguments that matter. *)
Inductive Event : Type :=
| CallLoader (path : string)
| CallSplitter
| CallAddDocuments
| CallEmbeddingModel
| CallVectorstore (collection_name : string)
| CallLLM
| CallRankingModel (top_n : Z)
| CallRetriever (query : string) (k : Z)
| CallReranker (query : string) (docs : list Document)
| CallQueryRewriter (history : list PromptMessage) (input : string)
| CallChain (messages : list PromptMessage) (question : string)
            (context : list string)
| CallRelevanceJudge (query : string) (docs : list Document)
| CallGroundednessJudge (response : string) (context : list string)
| CallRegenerate (response : string) (context : list string).

(** The collaborators.  The first argument of an effectful one is the trace
    of the calls made before it, most recent first. *)
Record World : Type := mkWorld {
  (* [prompts = get_prompts()] *)
  chat_template : string;                 (* [prompts.get] of [chat_template], empty when absent *)
  rag_template : string;                  (* [prompts.get] of [rag_template], empty when absent *)
  query_rewriter_prompt : option string;  (* [prompts.get] of [query_rewriter_prompt] *)
  (* ingestion *)
  load_documents : list Event -> string -> result (list Document);
  split_documents : list Event -> list Document -> result (list Document);
  add_documents : list Event -> list Document -> result unit;
  (* factories of [.utils]; [get_vectorstore] answers [false] for [None],
     [get_ranking_model] answers the truth value of the ranker *)
  get_embedding_model : list Event -> result unit;
  get_vectorstore : list Event -> string -> result bool;
  get_llm : list Event -> result unit;
  get_ranking_model : list Event -> Z -> result bool;
  (* request-time calls *)
  retriever_invoke : list Event -> string -> Z -> result (list Document);
  compress_documents : list Event -> string -> list Document -> result (list Document);
  query_rewriter_invoke : list Event -> string -> list PromptMessage -> string -> result string;
  chain_invoke : list Event -> list PromptMessage -> string -> list string
                 -> result StructuredResponse;
  (* pure helpers of [.utils] and of pydantic *)
  normalize_relevance_scores : list Document -> list Document;
  format_document_with_source : Document -> string;
  str_of_response : StructuredResponse -> string;   (* [str(initial_response)] *)
  (* the judgment calls of the reflection module *)
  judge_relevance : list Event -> string -> list Document -> result bool;
  judge_groundedness : list Event -> string -> list string -> result bool;
  regenerate : list Event -> string -> list string -> result string;
  reflection_rerank_default : bool
}.

(** [ReflectionCounter] of [.reflection]: the attributes the pipeline reads
    are [remaining] and [current_count]. *)
Record ReflectionCounter : Type := mkReflectionCounter {
  max_loops : Z;
  current_count : Z
}.

(** The mutable part of a request: the calls made so far and the local
    variable [reflection_counter] ([None] while unbound). *)
Record Heap : Type := mkHeap {
  trace : list Event;
  reflection_counter : option ReflectionCounter
}.

Definition empty_heap : Heap := mkHeap [] None.

Definition M (A : Type) : Type := Heap -> result A * Heap.

Definition ret {A : Type} (a : A) : M A := fun h => (Ok a, h).

Definition raise {A : Type} (e : Exn) : M A := fun h => (Raise e, h).

Definition bind {A B : Type} (m : M A) (k : A -> M B) : M B :=
  fun h => match m h with
           | (Ok a, h') => k a h'
           | (Raise e, h') => (Raise e, h')
           end.

(** [try: body except ...: handler]; the handlers of the module are total on
    the exceptions they receive because each chain ends in [except
    Exception]. *)
Definition try_except {A : Type} (body : M A) (handler : Exn -> M A) : M A :=
  fun h => match body h with
           | (Ok a, h') => (Ok a, h')
           | (Raise e, h') => handler e h'
           end.

Definition lift {A : Type} (r : result A) : M A := fun h => (r, h).

(** A collaborator call: the collaborator answers from the trace so far and
    the call is recorded. *)
Definition call {A : Type} (ev : Event) (oracle : list Event -> result A) : M A :=
  fun h => (oracle (trace h), mkHeap (ev :: trace h) (reflection_counter h)).

Declare Scope py_scope.
Delimit Scope py_scope with py.
Notation "x <- m ;; k" := (bind m (fun x => k))
  (at level 61, m at next level, right associativity) : py_scope.
Notation "' pat <- m ;; k" := (bind m (fun x => match x with pat => k end))
  (at level 61, pat pattern, m at next level, right associativity) : py_scope.
Notation "m ;; k" := (bind m (fun _ => k))
  (at level 61, right associativity) : py_scope.
Local Open Scope py_scope.

(* ===================================================================== *)
(** ** The reflection module *)
(* ===================================================================== *)

Module Reflection.

(** Modelled from the spec: the attribute [remaining] is read by the
    pipeline but defined in [reflection.py], which is not among the sources.
    Section 4.4: [remaining = max_iterations - used]. *)
Definition remaining (c : ReflectionCounter) : Z :=
  (max_loops c - current_count c)%Z.

Definition unbound_local : Exn :=
  mkExn OtherException "UnboundLocalError: reflection_counter".

(** [reflection_counter = ReflectionCounter(max_loops)]. *)
Definition new_counter (max : Z) : M unit :=
  fun h => (Ok tt, mkHeap (trace h) (Some (mkReflectionCounter max 0))).

(** Reading the local variable [reflection_counter]. *)
Definition get_counter : M ReflectionCounter :=
  fun h => match reflection_counter h with
           | Some c => (Ok c, h)
           | None => (Raise unbound_local, h)
           end.

(** Modelled from the spec: [ReflectionCounter] lives in [reflection.py],
    which is not among the sources.  Section 3: each reflection attempt
    increments [used] exactly once. *)
Definition increment : M unit :=
  fun h => match reflection_counter h with
           | Some c =>
               (Ok tt, mkHeap (trace h)
                         (Some (mkReflectionCounter (max_loops c) (current_count c + 1))))
           | None => (Raise unbound_local, h)
           end.

(** Modelled from the spec: the judgment calls are made inside
    [reflection.py].  Section 7: a failed judgment is a reason to retry, not
    a fatal error, so a judgment that raises counts as a negative verdict. *)
Definition verdict (ev : Event) (judge : list Event -> result bool) : M bool :=
  try_except (call ev judge) (fun _ => ret false).

(** Modelled from the spec: step 1 of the context-relevance loop of section
    4.4, retrieve with the current query and optionally rerank. *)
Definition retrieve_once (w : World) (query : string) (k : Z) (rerank : bool)
  : M (list Document) :=
  docs <- call (CallRetriever query k) (fun t => retriever_invoke w t query k) ;;
  if rerank then
    ranked <- call (CallReranker query docs) (fun t => compress_documents w t query docs) ;;
    ret (normalize_relevance_scores w ranked)
  else ret docs.

(** Modelled from the spec: [check_context_relevance] lives in
    [reflection.py], which is not among the sources.  Section 4.4, the
    context-relevance loop; [budget] mirrors [max_iterations - used], so
    [budget = 0] is the case [used == max_iterations]. *)
Fixpoint relevance_loop (w : World) (budget : nat) (query : string) (k : Z)
    (rerank : bool) : M (list Document * bool) :=
  docs <- retrieve_once w query k rerank ;;
  relevant <- verdict (CallRelevanceJudge query docs)
                      (fun t => judge_relevance w t query docs) ;;
  if relevant then ret (docs, true)
  else match budget with
       | O => ret (docs, false)
       | S budget' => increment ;; relevance_loop w budget' query k rerank
       end.

(** [check_context_relevance(query, retriever, ranker, reflection_counter
    [, enable_reranker])]; the retriever is given by its [k], the ranker by
    its truth value. *)
Definition check_context_relevance (w : World) (query : string) (k : Z)
    (ranker : bool) (enable : option bool) : M (list Document * bool) :=
  c <- get_counter ;;
  let use := match enable with Some b => b | None => reflection_rerank_default w end in
  relevance_loop w (Z.to_nat (remaining c)) query k (ranker && use).

(** Modelled from the spec: [check_response_groundedness] lives in
    [reflection.py], which is not among the sources.  Section 4.4, the
    response-groundedness loop, started on the candidate the caller
    generated. *)
Fixpoint groundedness_loop (w : World) (budget : nat) (response : string)
    (docs : list string) : M (string * bool) :=
  grounded <- verdict (CallGroundednessJudge response docs)
                      (fun t => judge_groundedness w t response docs) ;;
  if grounded then ret (response, true)
  else match budget with
       | O => ret (response, false)
       | S budget' =>
           increment ;;
           response' <- call (CallRegenerate response docs)
                             (fun t => regenerate w t response docs) ;;
           groundedness_loop w budget' response' docs
       end.

Definition check_response_groundedness (w : World) (response : string)
    (docs : list string) : M (string * bool) :=
  c <- get_counter ;;
  groundedness_loop w (Z.to_nat (remaining c)) response docs.

End Reflection.

(* ===================================================================== *)
(** ** Return values of the pipeline *)
(* ===================================================================== *)

(** One item of a response stream: [json.dumps(x.model_dump(), ...)] of a
    [StructuredResponse] [x], kept as [x] itself, or a plain string. *)
Inductive Chunk : Type :=
| Dumped (sr : StructuredResponse)
| Text (s : string).

(** The three local generator functions, with the variables they close
    over.  Nothing of their body runs before the caller iterates. *)
Inductive GeneratorBody : Type :=
| stream_structured_response (message : list PromptMessage) (query : string)
| stream_structured_rag_response (message : list PromptMessage) (query : string)
                                 (docs : list string)
| stream_structured_multiturn_response (message : list PromptMessage)
                                       (query : string) (docs : list string).

(** [iter([...])] or a generator object. *)
Inductive Stream : Type :=
| PyIter (items : list Chunk)
| PyGenerator (g : GeneratorBody).

(** What a generation path hands back: a bare stream, a pair of a stream and
    the context documents, or [None] when the function body falls off its
    end. *)
Inductive Returned : Type :=
| RetStream (s : Stream)
| RetPair (s : Stream) (context : list Document)
| RetNone.

(** [iter([json.dumps(x.model_dump(), ...)])] for [x] the
    [StructuredResponse] built from the keyword dictionary [data]. *)
Definition dumped_iter (data : list (string * json)) : M Stream :=
  sr <- lift (Schema.init data) ;;
  ret (PyIter [Dumped sr]).

(** Exhausting a generator: its body runs, with its own [try]/[except], and
    the items it yields are collected. *)
Definition run_generator (w : World) (g : GeneratorBody) : M (list Chunk) :=
  match g with
  | stream_structured_response message query =>       (* lines 283-294 *)
      try_except
        (structured_result <- call (CallChain message query [])
                                   (fun t => chain_invoke w t message query []) ;;
         ret [Dumped structured_result])
        (fun e =>
           error_response <- lift (Schema.init
             [("description",
               JStr ("Error generating vGPU configuration: " ++ exn_str e
                     ++ ". Unable to provide recommendation."))]) ;;
           ret [Dumped error_response])
  | stream_structured_rag_response message query docs =>   (* lines 445-455 *)
      try_except
        (structured_result <- call (CallChain message query docs)
                                   (fun t => chain_invoke w t message query docs) ;;
         ret [Dumped structured_result])
        (fun e =>
           error_response <- lift (Schema.init
             [("description",
               JStr ("Error generating RAG vGPU configuration: " ++ exn_str e
                     ++ ". Unable to provide recommendation."))]) ;;
           ret [Dumped error_response])
  | stream_structured_multiturn_response message query docs =>   (* lines 645-659 *)
      try_except
        (structured_result <- call (CallChain message query docs)
                                   (fun t => chain_invoke w t message query docs) ;;
         (* [hasattr(structured_result, 'sources_used')] is false: the model
            has no such field *)
         ret [Dumped structured_result])
        (fun e =>
           error_response <- lift (Schema.init
             [("response",
               JStr ("Error generating multiturn RAG response: " ++ exn_str e));
              ("sources_used", JBool true)]) ;;
           ret [Dumped error_response])
  end.

(** Iterating a stream to its end. *)
Definition consume (w : World) (s : Stream) : M (list Chunk) :=
  match s with
  | PyIter items => ret items
  | PyGenerator g => run_generator w g
  end.

(* ===================================================================== *)
(** ** [ingest_docs] *)
(* ===================================================================== *)

(** Lines 191-210, the body of the [try]. *)
Definition ingest_docs_body (w : World) (data_dir collection_name : string) : M unit :=
  raw_documents <- call (CallLoader data_dir) (fun t => load_documents w t data_dir) ;;
  if Py.truthy raw_documents then
    documents <- call CallSplitter (fun t => split_documents w t raw_documents) ;;
    vs <- call (CallVectorstore collection_name)
               (fun t => get_vectorstore w t collection_name) ;;
    if vs then call CallAddDocuments (fun t => add_documents w t documents)
    else raise (mkExn OtherException
                  "'NoneType' object has no attribute 'add_documents'")
  else ret tt.

(** Lines 212-228: the [APIError] raised for a failure [e] of the body.  The
    [ConnectTimeout] clause comes first; the substring tests are on
    [str(e)]. *)
Definition ingest_docs_except (e : Exn) : Exn :=
  match exn_class e with
  | ConnectTimeout =>
      mkAPIError "Connection timed out while accessing the embedding model endpoint. Verify server availability."
                 (Some 504%Z)
  | _ =>
      if Py.contains "[403] Forbidden" (exn_str e)
         && Py.contains "Invalid UAM response" (exn_str e)
      then mkAPIError "Authentication or permission error: Verify NVIDIA API key validity and permissions."
                      (Some 403%Z)
      else if Py.contains "[404] Not Found" (exn_str e)
      then mkAPIError "API endpoint or payload is invalid. Ensure the model name is valid."
                      (Some 404%Z)
      else mkAPIError ("Failed to upload document. " ++ exn_str e) (Some 500%Z)
  end.

Definition ingest_docs (w : World) (data_dir collection_name : string) : M unit :=
  try_except (ingest_docs_body w data_dir collection_name)
             (fun e => raise (ingest_docs_except e)).

(* ===================================================================== *)
(** ** Prompt assembly *)
(* ===================================================================== *)

Definition nemotron_family : string := "llama-3.3-nemotron-super-49b".

Definition targets_nemotron (kw : Kwargs) : bool :=
  Py.contains nemotron_family (model kw).

Definition thinking_directive (env : Environ) : string :=
  if ENABLE_NEMOTRON_THINKING env then "detailed thinking on"
  else "detailed thinking off".

Definition question_message : PromptMessage := ("user", "{question}").

(** The loop of lines 258-262 and 542-546: system turns are appended to the
    system prompt, the others to [conversation_history]. *)
Fixpoint fold_history (system_prompt : string)
    (conversation_history : list PromptMessage) (chat_history : list Message)
  : string * list PromptMessage :=
  match chat_history with
  | [] => (system_prompt, conversation_history)
  | message :: rest =>
      if String.eqb (role message) "system"
      then fold_history (system_prompt ++ " " ++ content message)
                        conversation_history rest
      else fold_history system_prompt
                        (conversation_history ++ [(role message, content message)])
                        rest
  end.

(** The loop of lines 375-377: only the system turns are used. *)
Fixpoint fold_system (system_prompt : string) (chat_history : list Message) : string :=
  match chat_history with
  | [] => system_prompt
  | message :: rest =>
      if String.eqb (role message) "system"
      then fold_system (system_prompt ++ " " ++ content message) rest
      else fold_system system_prompt rest
  end.

(** [llm_chain], lines 241-271. *)
Definition llm_chain_message (w : World) (env : Environ) (kw : Kwargs)
    (query : string) (chat_history : list Message) : list PromptMessage :=
  let system_prompt := ("" ++ chat_template w)%string in
  let system_prompt :=
    if targets_nemotron kw then thinking_directive env else system_prompt in
  let nemotron_message :=
    if targets_nemotron kw then [("user", chat_template w)] else [] in
  let '(system_prompt, conversation_history) :=
    fold_history system_prompt [] chat_history in
  let system_message := [("system", system_prompt)] in
  let user_message := if String.eqb query "" then [] else [question_message] in
  system_message ++ nemotron_message ++ conversation_history ++ user_message.

(** [rag_chain], lines 361-383: [conversation_history] stays empty. *)
Definition rag_chain_message (w : World) (env : Environ) (kw : Kwargs)
    (chat_history : list Message) : list PromptMessage :=
  let system_prompt := ("" ++ rag_template w)%string in
  let conversation_history : list PromptMessage := [] in
  let system_prompt :=
    if targets_nemotron kw then thinking_directive env else system_prompt in
  let user_message :=
    if targets_nemotron kw then [("user", rag_template w)] else [] in
  let system_prompt := fold_system system_prompt chat_history in
  let system_message := [("system", system_prompt)] in
  let user_message := user_message ++ [question_message] in
  system_message ++ conversation_history ++ user_message.

(** [rag_chain_with_multiturn], lines 528-548, on the history already cut to
    its window: the system message, [conversation_history] and the
    [user_message] list as they stand at line 548. *)
Definition multiturn_prompt_parts (w : World) (env : Environ) (kw : Kwargs)
    (chat_history : list Message)
  : list PromptMessage * list PromptMessage * list PromptMessage :=
  let system_prompt := ("" ++ rag_template w)%string in
  let system_prompt :=
    if targets_nemotron kw then thinking_directive env else system_prompt in
  let user_message :=
    if targets_nemotron kw then [("user", rag_template w)] else [] in
  let '(system_prompt, conversation_history) :=
    fold_history system_prompt [] chat_history in
  let system_message := [("system", system_prompt)] in
  (system_message, conversation_history, user_message).

(** Lines 579-580. *)
Definition multiturn_message (w : World) (env : Environ) (kw : Kwargs)
    (chat_history : list Message) : list PromptMessage :=
  let '(system_message, conversation_history, user_message) :=
    multiturn_prompt_parts w env kw chat_history in
  let user_message := user_message ++ [question_message] in
  system_message ++ conversation_history ++ user_message.

(* ===================================================================== *)
(** ** [llm_chain] *)
(* ===================================================================== *)

(** Lines 240-296, the body of the [try]. *)
Definition llm_chain_body (w : World) (env : Environ) (kw : Kwargs)
    (query : string) (chat_history : list Message) : M Returned :=
  let message := llm_chain_message w env kw query chat_history in
  call CallLLM (get_llm w) ;;
  ret (RetStream (PyGenerator (stream_structured_response message query))).

(** Lines 297-324. *)
Definition llm_chain_except (e : Exn) : M Returned :=
  match exn_class e with
  | ConnectTimeout =>
      s <- dumped_iter
             [("description",
               JStr "Connection timed out while making a request to the NIM endpoint. Verify if the NIM server is available. Unable to generate vGPU configuration.")] ;;
      ret (RetStream s)
  | _ =>
      if Py.contains "[403] Forbidden" (exn_str e)
         && Py.contains "Invalid UAM response" (exn_str e)
      then
        s <- dumped_iter
               [("description",
                 JStr "Authentication or permission error: Verify the validity and permissions of your NVIDIA API key. Unable to generate vGPU configuration.")] ;;
        ret (RetStream s)
      else if Py.contains "[404] Not Found" (exn_str e)
      then
        s <- dumped_iter
               [("description",
                 JStr "Please verify the API endpoint and your payload. Ensure that the model name is valid. Unable to generate vGPU configuration.")] ;;
        ret (RetStream s)
      else
        s <- dumped_iter
               [("description",
                 JStr ("Failed to generate RAG chain response. " ++ exn_str e
                       ++ ". Unable to generate vGPU configuration."))] ;;
        ret (RetStream s)
  end.

Definition llm_chain (w : World) (env : Environ) (kw : Kwargs)
    (query : string) (chat_history : list Message) : M Returned :=
  try_except (llm_chain_body w env kw query chat_history) llm_chain_except.

(* ===================================================================== *)
(** ** Stages shared by the retrieval paths *)
(* ===================================================================== *)

Definition store_not_initialized : Exn :=
  mkAPIError "Vector store not initialized properly. Please check if the vector DB is up and running."
             (Some 500%Z).

(** Lines 350-359 of [rag_chain], repeated as lines 512-522 of
    [rag_chain_with_multiturn]: the collaborators are obtained and the
    retriever's [k] is chosen.  The result is the truth value of the ranker
    and [top_k]. *)
Definition open_generation (w : World) (kw : Kwargs)
    (reranker_top_k vdb_top_k : Z) (collection_name : string) : M (bool * Z) :=
  call CallEmbeddingModel (get_embedding_model w) ;;
  vs <- call (CallVectorstore collection_name)
             (fun t => get_vectorstore w t collection_name) ;;
  if negb vs then raise store_not_initialized
  else
    call CallLLM (get_llm w) ;;
    ranker <- call (CallRankingModel reranker_top_k)
                   (fun t => get_ranking_model w t reranker_top_k) ;;
    let top_k := if ranker && enable_reranker kw then vdb_top_k else reranker_top_k in
    ret (ranker, top_k).

(** Lines 387-422 of [rag_chain], repeated as lines 584-619 of
    [rag_chain_with_multiturn]: the context documents for [query]. *)
Definition retrieve_context (w : World) (env : Environ) (kw : Kwargs)
    (query : string) (ranker : bool) (top_k : Z) : M (list Document) :=
  if ENABLE_REFLECTION env then
    let max_loops := MAX_REFLECTION_LOOP env in
    Reflection.new_counter max_loops ;;
    '(context_to_show, is_relevant) <-
       Reflection.check_context_relevance w query top_k ranker None ;;
    ret context_to_show
  else if ranker && enable_reranker kw then
    docs <- call (CallRetriever query top_k)
                 (fun t => retriever_invoke w t query top_k) ;;
    docs <- call (CallReranker query docs)
                 (fun t => compress_documents w t query docs) ;;
    ret (normalize_relevance_scores w docs)
  else
    call (CallRetriever query top_k) (fun t => retriever_invoke w t query top_k).

(** The test of lines 430 and 628: [ENABLE_REFLECTION and
    reflection_counter.remaining > 0], the second operand read only when the
    first holds. *)
Definition reflection_budget_left (env : Environ) : M bool :=
  if ENABLE_REFLECTION env then
    c <- Reflection.get_counter ;;
    ret (0 <? Reflection.remaining c)%Z
  else ret false.

(** The test of lines 569 and 761 on the rewritten query. *)
Definition no_actionable_query (retriever_query : string) : bool :=
  String.eqb (Py.replace_dquote retriever_query) "''"
  || Nat.eqb (String.length retriever_query) 0.

(** [[msg.content for msg in history if msg.role == "user"]]. *)
Definition user_queries (history : list Message) : list string :=
  map content (filter (fun msg => String.eqb (role msg) "user") history).

(** Lines 575 and 766. *)
Definition combined_query (history : list Message) (query : string) : string :=
  Py.join ". " (user_queries history ++ [query]).

Definition contextualize_q_system_prompt : string :=
  "Given a chat history and the latest user question which might reference context in the chat history, formulate a standalone question which can be understood without the chat history. Do NOT answer the question, just reformulate it if needed and otherwise return it as is.".

(** Lines 560-567 and 752-759: the rewriting chain is invoked. *)
Definition rewrite_query (w : World) (conversation_history : list PromptMessage)
    (input : string) : M string :=
  let prompt := match query_rewriter_prompt w with
                | Some p => p
                | None => contextualize_q_system_prompt
                end in
  call (CallQueryRewriter conversation_history input)
       (fun t => query_rewriter_invoke w t prompt conversation_history input).

(** The history window of lines 526-527 and 736-737:
    [history[int(CONVERSATION_HISTORY) * 2 * -1:]]. *)
Definition history_window (env : Environ) (history : list Message) : list Message :=
  let history_count := (CONVERSATION_HISTORY env * 2 * -1)%Z in
  Py.slice_from history_count history.

(* ===================================================================== *)
(** ** [rag_chain_with_multiturn] *)
(* ===================================================================== *)

(** Lines 549-576: the query used for retrieval, or [None] where the
    function leaves at line 570, returning the iterator over the one-element
    list that holds the empty string. *)
Definition multiturn_retriever_query (w : World) (kw : Kwargs) (query : string)
    (chat_history : list Message) (conversation_history : list PromptMessage)
  : M (option string) :=
  let retriever_query := query in
  if Py.truthy chat_history then
    if enable_query_rewriting kw then
      retriever_query <- rewrite_query w conversation_history query ;;
      if no_actionable_query retriever_query then ret None
      else ret (Some retriever_query)
    else ret (Some (combined_query chat_history query))
  else ret (Some retriever_query).

(** Lines 627-661. *)
Definition multiturn_answer (w : World) (env : Environ)
    (message : list PromptMessage) (query : string) (docs : list string)
    (context_to_show : list Document) : M Returned :=
  reflect <- reflection_budget_left env ;;
  if reflect then
    initial_response <- call (CallChain message query docs)
                             (fun t => chain_invoke w t message query docs) ;;
    '(final_response, is_grounded) <-
       Reflection.check_response_groundedness w
         (str_of_response w initial_response) docs ;;
    s <- dumped_iter
           [("response", JStr final_response);
            ("sources_used", JBool true);
            ("reasoning",
             JStr "Response generated with multiturn RAG, reflection and grounding checks")] ;;
    ret (RetPair s context_to_show)
  else
    ret (RetPair (PyGenerator (stream_structured_multiturn_response message query docs))
                 context_to_show).

(** Lines 511-661, the body of the [try]. *)
Definition rag_chain_with_multiturn_body (w : World) (env : Environ) (kw : Kwargs)
    (query : string) (chat_history : list Message)
    (reranker_top_k vdb_top_k : Z) (collection_name : string) : M Returned :=
  '(ranker, top_k) <- open_generation w kw reranker_top_k vdb_top_k collection_name ;;
  let chat_history := history_window env chat_history in
  let '(_, conversation_history, _) := multiturn_prompt_parts w env kw chat_history in
  formulated <- multiturn_retriever_query w kw query chat_history conversation_history ;;
  match formulated with
  | None => ret (RetStream (PyIter [Text ""]))
  | Some retriever_query =>
      let message := multiturn_message w env kw chat_history in
      context_to_show <- retrieve_context w env kw retriever_query ranker top_k ;;
      let docs := map (format_document_with_source w) context_to_show in
      multiturn_answer w env message query docs context_to_show
  end.

(** Lines 663-703.  The [ConnectionError] clause returns only under its
    [if]; otherwise the function body ends and the call yields [None]. *)
Definition rag_chain_with_multiturn_except (e : Exn) : M Returned :=
  match exn_class e with
  | ConnectTimeout =>
      s <- dumped_iter
             [("response",
               JStr "Connection timed out while making a request to the NIM endpoint. Verify if the NIM server is available.");
              ("sources_used", JBool true)] ;;
      ret (RetStream s)
  | ConnectionError =>
      if Py.contains "HTTPConnectionPool" (exn_str e) then
        s <- dumped_iter
               [("response",
                 JStr "Connection error: Failed to connect to service. Please verify if all required NIMs are running and accessible.");
                ("sources_used", JBool true)] ;;
        ret (RetStream s)
      else ret RetNone
  | _ =>
      if Py.contains "[403] Forbidden" (exn_str e)
         && Py.contains "Invalid UAM response" (exn_str e)
      then
        s <- dumped_iter
               [("response",
                 JStr "Authentication or permission error: Verify the validity and permissions of your NVIDIA API key.");
                ("sources_used", JBool true)] ;;
        ret (RetStream s)
      else if Py.contains "[404] Not Found" (exn_str e)
      then
        s <- dumped_iter
               [("response",
                 JStr "Please verify the API endpoint and your payload. Ensure that the model name is valid.");
                ("sources_used", JBool true)] ;;
        ret (RetStream s)
      else
        s <- dumped_iter
               [("response",
                 JStr ("Failed to generate RAG chain with multi-turn response. "
                       ++ exn_str e));
                ("sources_used", JBool true)] ;;
        ret (RetStream s)
  end.

Definition rag_chain_with_multiturn (w : World) (env : Environ) (kw : Kwargs)
    (query : string) (chat_history : list Message)
    (reranker_top_k vdb_top_k : Z) (collection_name : string) : M Returned :=
  try_except
    (rag_chain_with_multiturn_body w env kw query chat_history
       reranker_top_k vdb_top_k collection_name)
    rag_chain_with_multiturn_except.

(* ===================================================================== *)
(** ** [rag_chain] *)
(* ===================================================================== *)

(** Lines 429-457. *)
Definition rag_chain_answer (w : World) (env : Environ)
    (message : list PromptMessage) (query : string) (docs : list string)
    (context_to_show : list Document) : M Returned :=
  reflect <- reflection_budget_left env ;;
  if reflect then
    initial_response <- call (CallChain message query docs)
                             (fun t => chain_invoke w t message query docs) ;;
    '(final_response, is_grounded) <-
       Reflection.check_response_groundedness w
         (str_of_response w initial_response) docs ;;
    s <- dumped_iter
           [("description",
             JStr ("vGPU configuration generated with reflection and grounding checks: "
                   ++ final_response))] ;;
    ret (RetPair s context_to_show)
  else
    ret (RetPair (PyGenerator (stream_structured_rag_response message query docs))
                 context_to_show).

(** Lines 349-457, the body of the [try]. *)
Definition rag_chain_body (w : World) (env : Environ) (kw : Kwargs)
    (query : string) (chat_history : list Message)
    (reranker_top_k vdb_top_k : Z) (collection_name : string) : M Returned :=
  '(ranker, top_k) <- open_generation w kw reranker_top_k vdb_top_k collection_name ;;
  let message := rag_chain_message w env kw chat_history in
  context_to_show <- retrieve_context w env kw query ranker top_k ;;
  let docs := map (format_document_with_source w) context_to_show in
  rag_chain_answer w env message query docs context_to_show.

(** Lines 458-497.  As in the multiturn variant, the [ConnectionError]
    clause returns only under its [if]. *)
Definition rag_chain_except (e : Exn) : M Returned :=
  match exn_class e with
  | ConnectTimeout =>
      s <- dumped_iter
             [("response",
               JStr "Connection timed out while making a request to the NIM endpoint. Verify if the NIM server is available.");
              ("sources_used", JBool true)] ;;
      ret (RetStream s)
  | ConnectionError =>
      if Py.contains "HTTPConnectionPool" (exn_str e) then
        s <- dumped_iter
               [("response",
                 JStr "Connection error: Failed to connect to service. Please verify if all required services are running and accessible.");
                ("sources_used", JBool true)] ;;
        ret (RetStream s)
      else ret RetNone
  | _ =>
      if Py.contains "[403] Forbidden" (exn_str e)
         && Py.contains "Invalid UAM response" (exn_str e)
      then
        s <- dumped_iter
               [("response",
                 JStr "Authentication or permission error: Verify the validity and permissions of your NVIDIA API key.");
                ("sources_used", JBool true)] ;;
        ret (RetStream s)
      else if Py.contains "[404] Not Found" (exn_str e)
      then
        s <- dumped_iter
               [("response",
                 JStr "Please verify the API endpoint and your payload. Ensure that the model name is valid.");
                ("sources_used", JBool true)] ;;
        ret (RetStream s)
      else
        s <- dumped_iter
               [("response",
                 JStr ("Failed to generate RAG chain response. " ++ exn_str e));
                ("sources_used", JBool true)] ;;
        ret (RetStream s)
  end.

(** Lines 345-497: with [ENABLE_MULTITURN] the call is handed over to
    [rag_chain_with_multiturn]. *)
Definition rag_chain (w : World) (env : Environ) (kw : Kwargs)
    (query : string) (chat_history : list Message)
    (reranker_top_k vdb_top_k : Z) (collection_name : string) : M Returned :=
  if ENABLE_MULTITURN env then
    rag_chain_with_multiturn w env kw query chat_history
      reranker_top_k vdb_top_k collection_name
  else
    try_except
      (rag_chain_body w env kw query chat_history
         reranker_top_k vdb_top_k collection_name)
      rag_chain_except.

(* ===================================================================== *)
(** ** [document_search] *)
(* ===================================================================== *)

(** Lines 738-742: the non-system turns, as [(role, content)] tuples. *)
Definition search_conversation_history (messages : list Message) : list PromptMessage :=
  map (fun message => (role message, content message))
      (filter (fun message => negb (String.eqb (role message) "system")) messages).

(** Lines 731-767: the query used for retrieval, or [None] where the
    function leaves with [return []].  The history is cut to its window on
    the rewriting branch only. *)
Definition search_retriever_query (w : World) (env : Environ) (kw : Kwargs)
    (content : string) (messages : list Message) : M (option string) :=
  let retriever_query := content in
  if Py.truthy messages then
    if enable_query_rewriting kw then
      let messages := history_window env messages in
      let conversation_history := search_conversation_history messages in
      retriever_query <- rewrite_query w conversation_history content ;;
      if no_actionable_query retriever_query then ret None
      else ret (Some retriever_query)
    else ret (Some (combined_query messages content))
  else ret (Some retriever_query).

(** Lines 719-729: the collaborators are obtained and the retriever's [k] is
    chosen.  The result is the truth value of [local_ranker] and [top_k]. *)
Definition open_search (w : World) (kw : Kwargs)
    (reranker_top_k vdb_top_k : Z) (collection_name : string) : M (bool * Z) :=
  call CallEmbeddingModel (get_embedding_model w) ;;
  vs <- call (CallVectorstore collection_name)
             (fun t => get_vectorstore w t collection_name) ;;
  if negb vs then raise (mkExn ValueError "")
  else
    local_ranker <- call (CallRankingModel reranker_top_k)
                         (fun t => get_ranking_model w t reranker_top_k) ;;
    let top_k := if local_ranker && enable_reranker kw then vdb_top_k
                 else reranker_top_k in
    ret (local_ranker, top_k).

(** Lines 768-800: the documents for the formulated query.  With reflection
    the relevance loop is given [content], not [retriever_query]. *)
Definition search_documents (w : World) (env : Environ) (kw : Kwargs)
    (content retriever_query : string) (local_ranker : bool) (top_k : Z)
  : M (list Document) :=
  if ENABLE_REFLECTION env then
    let max_loops := MAX_REFLECTION_LOOP env in
    Reflection.new_counter max_loops ;;
    '(docs, is_relevant) <-
       Reflection.check_context_relevance w content top_k local_ranker
         (Some (enable_reranker kw)) ;;
    ret docs
  else if local_ranker && enable_reranker kw then
    docs <- call (CallRetriever retriever_query top_k)
                 (fun t => retriever_invoke w t retriever_query top_k) ;;
    docs <- call (CallReranker retriever_query docs)
                 (fun t => compress_documents w t retriever_query docs) ;;
    ret (normalize_relevance_scores w docs)
  else
    call (CallRetriever retriever_query top_k)
         (fun t => retriever_invoke w t retriever_query top_k).

(** Lines 719-800, the body of the [try]. *)
Definition document_search_body (w : World) (env : Environ) (kw : Kwargs)
    (content : string) (messages : list Message)
    (reranker_top_k vdb_top_k : Z) (collection_name : string) : M (list Document) :=
  '(local_ranker, top_k) <- open_search w kw reranker_top_k vdb_top_k collection_name ;;
  formulated <- search_retriever_query w env kw content messages ;;
  match formulated with
  | None => ret []
  | Some retriever_query =>
      search_documents w env kw content retriever_query local_ranker top_k
  end.

(** Lines 802-803: every failure is wrapped in an [APIError] built without a
    [code] argument. *)
Definition document_search_except (e : Exn) : Exn :=
  mkAPIError ("Failed to search documents. " ++ exn_str e) None.

Definition document_search (w : World) (env : Environ) (kw : Kwargs)
    (content : string) (messages : list Message)
    (reranker_top_k vdb_top_k : Z) (collection_name : string) : M (list Document) :=
  try_except
    (document_search_body w env kw content messages
       reranker_top_k vdb_top_k collection_name)
    (fun e => raise (document_search_except e)).

(* ===================================================================== *)
(** ** Concrete collaborators for the examples *)
(* ===================================================================== *)

Module Scenario.

Definition doc : Document := mkDocument "L40S supports the 8Q profile" [("source", "vgpu.pdf")].

Definition answer : StructuredResponse :=
  mkStructuredResponse "generate_vgpu_config" "Use profile L40S-8Q"
    (JObj [("vGPU_profile", JStr "L40S-8Q")]).

(** A world whose collaborators answer the same way at every call:
    [embed], [store] and [retrieved] are the answers of the embedding-model
    factory, of [get_vectorstore] and of the retriever, [rewritten] the
    output of the query rewriter, [relevant] and [grounded] the verdicts of
    the two judges, [loaded] the answer of the document loader. *)
Definition world (embed : result unit) (store : result bool)
    (retrieved : result (list Document)) (rewritten : result string)
    (relevant grounded : bool) (loaded : result (list Document)) : World :=
  {| chat_template := "You are a helpful assistant.";
     rag_template := "Answer from the context: {context}";
     query_rewriter_prompt := None;
     load_documents := fun _ _ => loaded;
     split_documents := fun _ docs => Ok docs;
     add_documents := fun _ _ => Ok tt;
     get_embedding_model := fun _ => embed;
     get_vectorstore := fun _ _ => store;
     get_llm := fun _ => Ok tt;
     get_ranking_model := fun _ _ => Ok true;
     retriever_invoke := fun _ _ _ => retrieved;
     compress_documents := fun _ _ docs => Ok docs;
     query_rewriter_invoke := fun _ _ _ _ => rewritten;
     chain_invoke := fun _ _ _ _ => Ok answer;
     normalize_relevance_scores := fun docs => docs;
     format_document_with_source := page_content;
     str_of_response := description;
     judge_relevance := fun _ _ _ => Ok relevant;
     judge_groundedness := fun _ _ _ => Ok grounded;
     regenerate := fun _ response _ => Ok response;
     reflection_rerank_default := false |}.

(** Every collaborator is up. *)
Definition healthy : World :=
  world (Ok tt) (Ok true) (Ok [doc]) (Ok "standalone question") true true (Ok [doc]).

(** The embedding endpoint times out; the text of the failure carries the
    not-found marker as well. *)
Definition timeout : Exn := mkExn ConnectTimeout "[404] Not Found: timed out".

Definition embedding_times_out : World :=
  world (Raise timeout) (Ok true) (Ok [doc]) (Ok "standalone question") true true
        (Raise timeout).

(** [get_vectorstore] answers [None]. *)
Definition store_down : World :=
  world (Ok tt) (Ok false) (Ok [doc]) (Ok "standalone question") true true (Ok [doc]).

(** The similarity search fails. *)
Definition search_fails : World :=
  world (Ok tt) (Ok true) (Raise (mkExn OtherException "collection not loaded"))
        (Ok "standalone question") true true (Ok [doc]).

(** The vector database refuses the connection; the text of the failure
    does not mention a connection pool. *)
Definition connection_refused : World :=
  world (Ok tt) (Ok true) (Raise (mkExn ConnectionError "Connection refused"))
        (Ok "standalone question") true true (Ok [doc]).

(** The rewriter answers with nothing. *)
Definition rewrites_to_nothing : World :=
  world (Ok tt) (Ok true) (Ok [doc]) (Ok "") true true (Ok [doc]).

(** The relevance judge never accepts. *)
Definition never_relevant : World :=
  world (Ok tt) (Ok true) (Ok [doc]) (Ok "standalone question") false true (Ok [doc]).

(** The relevance judge never accepts and the groundedness judge neither. *)
Definition never_satisfied : World :=
  world (Ok tt) (Ok true) (Ok [doc]) (Ok "standalone question") false false (Ok [doc]).

(** Environment: everything off, the defaults of the module for the two
    integers. *)
Definition env_default : Environ := mkEnviron false false false 3 15.

Definition env_reflection : Environ := mkEnviron false false true 3 15.

Definition env_multiturn (turns : Z) : Environ := mkEnviron true false false 3 turns.

(** Multiturn with reflection and a budget of three attempts. *)
Definition env_reflective_multiturn : Environ := mkEnviron true false true 3 15.

(** The relevance judge accepts at once, the groundedness judge never. *)
Definition never_grounded : World :=
  world (Ok tt) (Ok true) (Ok [doc]) (Ok "standalone question") true false (Ok [doc]).

Definition kw_plain : Kwargs := mkKwargs "meta/llama-3.1-8b-instruct" false false.

Definition kw_rewriting : Kwargs := mkKwargs "meta/llama-3.1-8b-instruct" false true.

Definition kw_nemotron : Kwargs :=
  mkKwargs "nvidia/llama-3.3-nemotron-super-49b-v1" false false.

Definition user (text : string) : Message := mkMessage "user" text.
Definition assistant (text : string) : Message := mkMessage "assistant" text.

(** The loader finds no document. *)
Definition nothing_to_load : World :=
  world (Ok tt) (Ok true) (Ok []) (Ok "standalone question") true true (Ok []).

(** A world given by its splitter and by the factory of the language model;
    everything else is up. *)
Definition world_with (splitter : list Document -> result (list Document))
    (llm : result unit) : World :=
  {| chat_template := "You are a helpful assistant.";
     rag_template := "Answer from the context: {context}";
     query_rewriter_prompt := None;
     load_documents := fun _ _ => Ok [doc];
     split_documents := fun _ docs => splitter docs;
     add_documents := fun _ _ => Ok tt;
     get_embedding_model := fun _ => Ok tt;
     get_vectorstore := fun _ _ => Ok true;
     get_llm := fun _ => llm;
     get_ranking_model := fun _ _ => Ok true;
     retriever_invoke := fun _ _ _ => Ok [doc];
     compress_documents := fun _ _ docs => Ok docs;
     query_rewriter_invoke := fun _ _ _ q => Ok q;
     chain_invoke := fun _ _ _ _ => Ok answer;
     normalize_relevance_scores := fun docs => docs;
     format_document_with_source := page_content;
     str_of_response := description;
     judge_relevance := fun _ _ _ => Ok true;
     judge_groundedness := fun _ _ _ => Ok true;
     regenerate := fun _ response _ => Ok response;
     reflection_rerank_default := false |}.

(** The text splitter fails. *)
Definition splitter_fails : World :=
  world_with (fun _ => Raise (mkExn OtherException "tokenizer missing")) (Ok tt).

(** The language-model endpoint times out, with a text that carries the
    not-found marker. *)
Definition llm_times_out : World :=
  world_with (fun docs => Ok docs) (Raise (mkExn ConnectTimeout "[404] Not Found")).

End Scenario.

(** The response every [StructuredResponse(...)] call without a
    [description] keyword produces. *)
Definition default_response : StructuredResponse :=
  mkStructuredResponse Schema.default_title Schema.default_description
    Schema.default_parameters.

(** The claimed message order of section 4.5, for comparison with the
    lists the module builds: system instructions, primer, history, query. *)
Definition spec_message_sequence (system_message primer history : list PromptMessage)
  : list PromptMessage :=
  system_message ++ primer ++ history ++ [question_message].

(** The last [n] elements of a list. *)
Definition last_n {A : Type} (n : nat) (l : list A) : list A :=
  skipn (List.length l - n) l.

(** The state of the request's counter respects the budget [budget]. *)
Definition counter_within (budget : Z) (h : Heap) : Prop :=
  match reflection_counter h with
  | None => True
  | Some c => max_loops c = budget /\ (0 <= current_count c <= budget)%Z
  end.

(** Hoare triples over [M]: from a heap satisfying [P], the computation
    ends in a result and a heap related by [Q]. *)
Definition hoare {A : Type} (P : Heap -> Prop) (m : M A)
    (Q : result A -> Heap -> Prop) : Prop :=
  forall h, P h -> Q (fst (m h)) (snd (m h)).

(** The calls to the retriever in a trace. *)
Definition retriever_calls (t : list Event) : list Event :=
  filter (fun ev => match ev with CallRetriever _ _ => true | _ => false end) t.

(** The calls made by the groundedness loop and the eager generation that
    precedes it. *)
Definition generation_calls (t : list Event) : list Event :=
  filter (fun ev => match ev with
                    | CallChain _ _ _ | CallGroundednessJudge _ _
                    | CallRegenerate _ _ => true
                    | _ => false
                    end) t.

(** The parts of a prompt, named: the text the system instructions start
    from, the primer message, the system turns as they are appended to the
    instructions, and the turns kept as history. *)
Definition instructions_base (env : Environ) (kw : Kwargs) (template : string) : string :=
  if targets_nemotron kw then thinking_directive env else template.

Definition primer (kw : Kwargs) (template : string) : list PromptMessage :=
  if targets_nemotron kw then [("user", template)] else [].

Definition system_suffix (history : list Message) : string :=
  String.concat ""
    (map (fun m => (" " ++ content m)%string)
         (filter (fun m => String.eqb (role m) "system") history)).

Definition history_turns (history : list Message) : list PromptMessage :=
  map (fun m => (role m, content m))
      (filter (fun m => negb (String.eqb (role m) "system")) history).

(** A stream that, iterated from any heap, yields exactly one item; and one
    whose single item is a serialized response. *)
Definition one_item_stream (w : World) (s : Stream) : Prop :=
  forall h, exists c, fst (consume w s h) = Ok [c].

Definition one_response_stream (w : World) (s : Stream) : Prop :=
  forall h, exists sr, fst (consume w s h) = Ok [Dumped sr].

(** A returned value that is [None] or carries a one-item stream. *)
Definition none_or_one_item (w : World) (r : Returned) : Prop :=
  match r with
  | RetNone => True
  | RetStream s | RetPair s _ => one_item_stream w s
  end.

(** A returned value that is a pair of a one-response stream and a list. *)
Definition response_pair (w : World) (r : Returned) : Prop :=
  exists s context, r = RetPair s context /\ one_response_stream w s.

(** The counter exists, has budget [budget], and has consumed between [lo]
    and [hi] attempts. *)
Definition counter_between (budget lo hi : Z) (h : Heap) : Prop :=
  exists c, reflection_counter h = Some c
            /\ max_loops c = budget
            /\ (lo <= current_count c <= hi)%Z.

(** A computation that leaves the counter alone keeps any property of it. *)
Definition keeps_counter {A : Type} (m : M A) : Prop :=
  forall h, reflection_counter (snd (m h)) = reflection_counter h.

(** Classes of collaborator calls. *)
Definition is_retriever_call (ev : Event) : bool :=
  match ev with CallRetriever _ _ => true | _ => false end.

Definition is_reranker_call (ev : Event) : bool :=
  match ev with CallReranker _ _ => true | _ => false end.

Definition is_generation_call (ev : Event) : bool :=
  match ev with
  | CallChain _ _ _ | CallGroundednessJudge _ _ | CallRegenerate _ _ => true
  | _ => false
  end.

Definition is_llm_call (ev : Event) : bool :=
  match ev with CallLLM | CallChain _ _ _ => true | _ => false end.

(** A computation that records no call of the class [f]. *)
Definition quiet_for {A : Type} (f : Event -> bool) (m : M A) : Prop :=
  forall h, filter f (trace (snd (m h))) = filter f (trace h).

(** A keyword value or, when the keyword is absent, a default. *)
Definition keyword_or (key : string) (default : json) (data : list (string * json)) : json :=
  match Py.get key data with Some v => v | None => default end.

(** A quote character, single or double. *)
Definition is_quote (c : ascii) : bool :=
  Ascii.eqb c Py.dquote || Ascii.eqb c Py.squote.

(* ===================================================================== *)
(** ** Reasoning principles for [M] *)
(* ===================================================================== *)

Section Monad_rules.

Context {A B : Type}.

Lemma run_bind (m : M A) (k : A -> M B) (h : Heap) :
  bind m k h = match m h with
               | (Ok a, h') => k a h'
               | (Raise e, h') => (Raise e, h')
               end.
Proof. reflexivity. Qed.

Lemma run_try (body : M A) (handler : Exn -> M A) (h : Heap) :
  try_except body handler h = match body h with
                              | (Ok a, h') => (Ok a, h')
                              | (Raise e, h') => handler e h'
                              end.
Proof. reflexivity. Qed.

Lemma hoare_weaken (P P' : Heap -> Prop) (Q Q' : result A -> Heap -> Prop) (m : M A) :
  hoare P' m Q' -> (forall h, P h -> P' h) -> (forall r h, Q' r h -> Q r h) ->
  hoare P m Q.
Proof. intros Hm HP HQ h Hh. apply HQ, Hm, HP, Hh. Qed.

Lemma hoare_ret (P : Heap -> Prop) (Q : result A -> Heap -> Prop) (a : A) :
  (forall h, P h -> Q (Ok a) h) -> hoare P (ret a) Q.
Proof. intros H h Hh. apply H, Hh. Qed.

Lemma hoare_raise (P : Heap -> Prop) (Q : result A -> Heap -> Prop) (e : Exn) :
  (forall h, P h -> Q (Raise e) h) -> hoare P (raise e) Q.
Proof. intros H h Hh. apply H, Hh. Qed.

Lemma hoare_lift (P : Heap -> Prop) (Q : result A -> Heap -> Prop) (r : result A) :
  (forall h, P h -> Q r h) -> hoare P (lift r) Q.
Proof. intros H h Hh. apply H, Hh. Qed.

Lemma hoare_call (P : Heap -> Prop) (Q : result A -> Heap -> Prop) (ev : Event)
    (oracle : list Event -> result A) :
  (forall h, P h -> Q (oracle (trace h)) (mkHeap (ev :: trace h) (reflection_counter h))) ->
  hoare P (call ev oracle) Q.
Proof. intros H h Hh. apply H, Hh. Qed.

Lemma hoare_bind (P : Heap -> Prop) (R : A -> Heap -> Prop)
    (Q : result B -> Heap -> Prop) (m : M A) (k : A -> M B) :
  hoare P m (fun r h => match r with Ok a => R a h | Raise e => Q (Raise e) h end) ->
  (forall a, hoare (R a) (k a) Q) ->
  hoare P (bind m k) Q.
Proof.
  intros Hm Hk h Hh. specialize (Hm h Hh). rewrite run_bind.
  destruct (m h) as [[a | e] h']; simpl in *.
  - apply Hk, Hm.
  - exact Hm.
Qed.

Lemma hoare_try (P : Heap -> Prop) (R : Exn -> Heap -> Prop)
    (Q : result A -> Heap -> Prop) (body : M A) (handler : Exn -> M A) :
  hoare P body (fun r h => match r with Ok a => Q (Ok a) h | Raise e => R e h end) ->
  (forall e, hoare (R e) (handler e) Q) ->
  hoare P (try_except body handler) Q.
Proof.
  intros Hm Hk h Hh. specialize (Hm h Hh). rewrite run_try.
  destruct (body h) as [[a | e] h']; simpl in *.
  - exact Hm.
  - apply Hk, Hm.
Qed.

End Monad_rules.

Lemma keeps_ret {A : Type} (a : A) : keeps_counter (ret a).
Proof. intro h. reflexivity. Qed.

Lemma keeps_raise {A : Type} (e : Exn) : keeps_counter (@raise A e).
Proof. intro h. reflexivity. Qed.

Lemma keeps_lift {A : Type} (r : result A) : keeps_counter (lift r).
Proof. intro h. reflexivity. Qed.

Lemma keeps_call {A : Type} (ev : Event) (oracle : list Event -> result A) :
  keeps_counter (call ev oracle).
Proof. intro h. reflexivity. Qed.

Lemma keeps_bind {A B : Type} (m : M A) (k : A -> M B) :
  keeps_counter m -> (forall a, keeps_counter (k a)) -> keeps_counter (bind m k).
Proof.
  intros Hm Hk h. rewrite run_bind. specialize (Hm h).
  destruct (m h) as [[a | e] h']; simpl in *.
  - rewrite Hk. exact Hm.
  - exact Hm.
Qed.

Lemma keeps_try {A : Type} (body : M A) (handler : Exn -> M A) :
  keeps_counter body -> (forall e, keeps_counter (handler e)) ->
  keeps_counter (try_except body handler).
Proof.
  intros Hm Hk h. rewrite run_try. specialize (Hm h).
  destruct (body h) as [[a | e] h']; simpl in *.
  - exact Hm.
  - rewrite Hk. exact Hm.
Qed.

Lemma keeps_if {A : Type} (b : bool) (m1 m2 : M A) :
  keeps_counter m1 -> keeps_counter m2 -> keeps_counter (if b then m1 else m2).
Proof. destruct b; auto. Qed.

Create HintDb keeps.
#[local] Hint Resolve keeps_ret keeps_raise keeps_lift keeps_call keeps_if : keeps.
#[local] Hint Extern 2 (keeps_counter (bind _ _)) => apply keeps_bind; [ | intro ] : keeps.
#[local] Hint Extern 2 (keeps_counter (try_except _ _)) => apply keeps_try; [ | intro ] : keeps.

(* ===================================================================== *)
(** ** The response model *)
(* ===================================================================== *)

Lemma init_description (d : string) :
  Schema.init [("description", JStr d)]
  = Ok (mkStructuredResponse Schema.default_title d Schema.default_parameters).
Proof. reflexivity. Qed.

Lemma init_response (r : string) :
  Schema.init [("response", JStr r); ("sources_used", JBool true)] = Ok default_response.
Proof. reflexivity. Qed.

Lemma init_response_reasoning (r why : string) :
  Schema.init [("response", JStr r); ("sources_used", JBool true); ("reasoning", JStr why)]
  = Ok default_response.
Proof. reflexivity. Qed.

Lemma dumped_iter_description (d : string) (h : Heap) :
  dumped_iter [("description", JStr d)] h
  = (Ok (PyIter [Dumped (mkStructuredResponse Schema.default_title d
                           Schema.default_parameters)]), h).
Proof. reflexivity. Qed.

Lemma dumped_iter_response (r : string) (h : Heap) :
  dumped_iter [("response", JStr r); ("sources_used", JBool true)] h
  = (Ok (PyIter [Dumped default_response]), h).
Proof. reflexivity. Qed.

Lemma dumped_iter_response_reasoning (r why : string) (h : Heap) :
  dumped_iter [("response", JStr r); ("sources_used", JBool true); ("reasoning", JStr why)] h
  = (Ok (PyIter [Dumped default_response]), h).
Proof. reflexivity. Qed.

(** The handlers of the three generation paths, case by case. *)
Lemma llm_chain_except_returns (e : Exn) (h : Heap) :
  exists d, llm_chain_except e h
            = (Ok (RetStream (PyIter [Dumped (mkStructuredResponse Schema.default_title d
                                              Schema.default_parameters)])), h).
Proof.
  unfold llm_chain_except.
  destruct (exn_class e);
    try (eexists; reflexivity);
    destruct (Py.contains "[403] Forbidden" (exn_str e) &&
              Py.contains "Invalid UAM response" (exn_str e));
    try (eexists; reflexivity);
    destruct (Py.contains "[404] Not Found" (exn_str e));
    eexists; reflexivity.
Qed.

Lemma rag_chain_except_returns (e : Exn) (h : Heap) :
  rag_chain_except e h = (Ok (RetStream (PyIter [Dumped default_response])), h)
  \/ (rag_chain_except e h = (Ok RetNone, h)
      /\ exn_class e = ConnectionError
      /\ Py.contains "HTTPConnectionPool" (exn_str e) = false).
Proof.
  unfold rag_chain_except.
  destruct (exn_class e) eqn:Hc;
    try (left; reflexivity);
    try (destruct (Py.contains "[403] Forbidden" (exn_str e) &&
                   Py.contains "Invalid UAM response" (exn_str e));
         [ left; reflexivity
         | destruct (Py.contains "[404] Not Found" (exn_str e)); left; reflexivity ]).
  destruct (Py.contains "HTTPConnectionPool" (exn_str e)) eqn:Hp.
  - left; reflexivity.
  - right; repeat split; reflexivity.
Qed.

Lemma rag_chain_with_multiturn_except_returns (e : Exn) (h : Heap) :
  rag_chain_with_multiturn_except e h
  = (Ok (RetStream (PyIter [Dumped default_response])), h)
  \/ (rag_chain_with_multiturn_except e h = (Ok RetNone, h)
      /\ exn_class e = ConnectionError
      /\ Py.contains "HTTPConnectionPool" (exn_str e) = false).
Proof.
  unfold rag_chain_with_multiturn_except.
  destruct (exn_class e) eqn:Hc;
    try (left; reflexivity);
    try (destruct (Py.contains "[403] Forbidden" (exn_str e) &&
                   Py.contains "Invalid UAM response" (exn_str e));
         [ left; reflexivity
         | destruct (Py.contains "[404] Not Found" (exn_str e)); left; reflexivity ]).
  destruct (Py.contains "HTTPConnectionPool" (exn_str e)) eqn:Hp.
  - left; reflexivity.
  - right; repeat split; reflexivity.
Qed.

(* ===================================================================== *)
(** ** Failure classification *)
(* ===================================================================== *)

(** C3, as stated, fails on the search path: a timeout of the embedding
    endpoint during [document_search] reaches the caller as an [APIError]
    with status 400, not 504. *)
Lemma search_timeout_is_not_504 :
  exists h',
    document_search_body Scenario.embedding_times_out Scenario.env_default
      Scenario.kw_plain "which profile?" [] 4 40 "" empty_heap
    = (Raise Scenario.timeout, h')
    /\ exn_class Scenario.timeout = ConnectTimeout
    /\ document_search Scenario.embedding_times_out Scenario.env_default
         Scenario.kw_plain "which profile?" [] 4 40 "" empty_heap
       = (Raise (mkExn (APIError 400)
                   "Failed to search documents. [404] Not Found: timed out"), h')
    /\ 400%Z <> 504%Z.
Proof.
  eexists. repeat split; try reflexivity. discriminate.
Qed.

(** C3 (amended): [ingest_docs] classifies a failure of its body into
    exactly one status: 504 for a timeout whatever its message, otherwise
    403 when the message holds both the forbidden marker and the
    invalid-response marker, otherwise 404 when it holds the not-found
    marker, otherwise 500; [document_search] does not classify and re-raises
    every failure as an [APIError] with the default status 400. *)
Theorem failure_classification :
  (forall w data_dir collection_name h e h',
      ingest_docs_body w data_dir collection_name h = (Raise e, h') ->
      exists message code,
        ingest_docs w data_dir collection_name h
        = (Raise (mkExn (APIError code) message), h')
        /\ (exn_class e = ConnectTimeout -> code = 504%Z)
        /\ (exn_class e <> ConnectTimeout ->
            Py.contains "[403] Forbidden" (exn_str e) = true ->
            Py.contains "Invalid UAM response" (exn_str e) = true ->
            code = 403%Z)
        /\ (exn_class e <> ConnectTimeout ->
            Py.contains "[403] Forbidden" (exn_str e)
            && Py.contains "Invalid UAM response" (exn_str e) = false ->
            Py.contains "[404] Not Found" (exn_str e) = true ->
            code = 404%Z)
        /\ (exn_class e <> ConnectTimeout ->
            Py.contains "[403] Forbidden" (exn_str e)
            && Py.contains "Invalid UAM response" (exn_str e) = false ->
            Py.contains "[404] Not Found" (exn_str e) = false ->
            code = 500%Z))
  /\
  (forall w env kw content messages reranker_top_k vdb_top_k collection_name h e h',
      document_search_body w env kw content messages reranker_top_k vdb_top_k
        collection_name h = (Raise e, h') ->
      document_search w env kw content messages reranker_top_k vdb_top_k
        collection_name h
      = (Raise (mkExn (APIError 400) ("Failed to search documents. " ++ exn_str e)), h')).
Proof.
  split.
  - intros w data_dir collection_name h e h' Hbody.
    unfold ingest_docs. rewrite run_try, Hbody. unfold raise, ingest_docs_except.
    destruct (exn_class e) eqn:Hc.
    1: { do 2 eexists; split; [reflexivity|].
         repeat split; intros; congruence. }
    all: destruct (Py.contains "[403] Forbidden" (exn_str e)) eqn:H403;
      destruct (Py.contains "Invalid UAM response" (exn_str e)) eqn:Huam;
      destruct (Py.contains "[404] Not Found" (exn_str e)) eqn:H404; simpl;
      do 2 eexists; (split; [reflexivity|]);
      repeat split; intros; try congruence; try reflexivity; try discriminate.
  - intros w env kw content messages rk vk c h e h' Hbody.
    unfold document_search. rewrite run_try, Hbody. reflexivity.
Qed.

(** Witness of C3: a timeout whose message carries the not-found marker is
    classified 504 by [ingest_docs]. *)
Lemma failure_classification_witness :
  exists message,
    ingest_docs Scenario.embedding_times_out "docs/vgpu.pdf" "" empty_heap
    = (Raise (mkExn (APIError 504) message), mkHeap [CallLoader "docs/vgpu.pdf"] None)
    /\ Py.contains "[404] Not Found" (exn_str Scenario.timeout) = true.
Proof.
  destruct (proj1 failure_classification Scenario.embedding_times_out
              "docs/vgpu.pdf" "" empty_heap Scenario.timeout
              (mkHeap [CallLoader "docs/vgpu.pdf"] None) eq_refl)
    as (message & code & Hrun & Htimeout & _).
  exists message. split.
  - rewrite Hrun. rewrite (Htimeout eq_refl). reflexivity.
  - reflexivity.
Defined.

(* ===================================================================== *)
(** ** An unavailable vector store *)
(* ===================================================================== *)

(** C6, as stated, fails: with the store unavailable [rag_chain] raises
    nothing to its caller (it returns an error stream) and
    [document_search] raises an [APIError] whose status is 400. *)
Lemma store_down_is_not_a_raised_500 :
  fst (rag_chain Scenario.store_down Scenario.env_default Scenario.kw_plain
         "which profile?" [] 4 40 "" empty_heap)
  = Ok (RetStream (PyIter [Dumped default_response]))
  /\ fst (document_search Scenario.store_down Scenario.env_default Scenario.kw_plain
            "which profile?" [] 4 40 "" empty_heap)
     = Raise (mkExn (APIError 400) "Failed to search documents. ")
  /\ 400%Z <> 500%Z.
Proof. repeat split; try reflexivity. discriminate. Qed.

(** C6 (amended): when [get_vectorstore] answers [None], the bodies of
    [rag_chain] and [rag_chain_with_multiturn] raise an [APIError] with the
    uninitialized-store message and status 500, which the handlers of
    these functions turn into a returned error stream, so that their caller
    sees no exception; [document_search] raises a [ValueError] that reaches
    its caller as an [APIError] with the default status 400.  In all three
    the retriever is never reached. *)
Theorem uninitialized_store :
  forall w env kw query history reranker_top_k vdb_top_k collection_name h,
    get_embedding_model w (trace h) = Ok tt ->
    get_vectorstore w (CallEmbeddingModel :: trace h) collection_name = Ok false ->
    let h' := mkHeap (CallVectorstore collection_name :: CallEmbeddingModel :: trace h)
                     (reflection_counter h) in
    rag_chain_body w env kw query history reranker_top_k vdb_top_k collection_name h
    = (Raise store_not_initialized, h')
    /\ rag_chain_with_multiturn_body w env kw query history reranker_top_k vdb_top_k
         collection_name h
       = (Raise store_not_initialized, h')
    /\ api_code store_not_initialized = Some 500%Z
    /\ rag_chain w env kw query history reranker_top_k vdb_top_k collection_name h
       = (Ok (RetStream (PyIter [Dumped default_response])), h')
    /\ document_search w env kw query history reranker_top_k vdb_top_k collection_name h
       = (Raise (mkExn (APIError 400) "Failed to search documents. "), h').
Proof.
  intros w env kw query history rk vk c h Hembed Hstore h'.
  assert (Hopen : open_generation w kw rk vk c h = (Raise store_not_initialized, h')).
  { unfold open_generation. rewrite run_bind. unfold call at 1. rewrite Hembed.
    rewrite run_bind. unfold call at 1. simpl trace. rewrite Hstore. reflexivity. }
  assert (Hrag : rag_chain_body w env kw query history rk vk c h
                 = (Raise store_not_initialized, h')).
  { unfold rag_chain_body. rewrite run_bind, Hopen. reflexivity. }
  assert (Hmulti : rag_chain_with_multiturn_body w env kw query history rk vk c h
                   = (Raise store_not_initialized, h')).
  { unfold rag_chain_with_multiturn_body. rewrite run_bind, Hopen. reflexivity. }
  repeat split; try assumption.
  - unfold rag_chain, rag_chain_with_multiturn.
    destruct (ENABLE_MULTITURN env); rewrite run_try.
    + rewrite Hmulti. reflexivity.
    + rewrite Hrag. reflexivity.
  - unfold document_search. rewrite run_try.
    assert (Hopen' : open_search w kw rk vk c h = (Raise (mkExn ValueError ""), h')).
    { unfold open_search. rewrite run_bind. unfold call at 1. rewrite Hembed.
      rewrite run_bind. unfold call at 1. simpl trace. rewrite Hstore. reflexivity. }
    unfold document_search_body. rewrite run_bind, Hopen'. reflexivity.
Qed.

(** Witness of C6: the world whose store is down. *)
Lemma uninitialized_store_witness :
  rag_chain Scenario.store_down Scenario.env_default Scenario.kw_plain
    "which profile?" [] 4 40 "vgpu" empty_heap
  = (Ok (RetStream (PyIter [Dumped default_response])),
     mkHeap [CallVectorstore "vgpu"; CallEmbeddingModel] None).
Proof.
  apply (uninitialized_store Scenario.store_down Scenario.env_default Scenario.kw_plain
           "which profile?" [] 4 40 "vgpu" empty_heap eq_refl eq_refl).
Defined.

(* ===================================================================== *)
(** ** Error answers of the generation paths *)
(* ===================================================================== *)

(** C4: the error answers of [rag_chain] and [rag_chain_with_multiturn] do
    not carry the failure in [description].  Whatever the failure, a handler
    of these two functions that returns a stream returns the response with
    the default description: the error text is passed under the keyword
    [response], which names no field of the model.  At the failing input (a
    timeout of the embedding endpoint) the returned description does not
    mention the timeout, whereas [llm_chain] on the same world does. *)
Theorem rag_error_description_is_default :
  (forall e h,
      rag_chain_except e h = (Ok (RetStream (PyIter [Dumped default_response])), h)
      \/ rag_chain_except e h = (Ok RetNone, h))
  /\ (forall e h,
      rag_chain_with_multiturn_except e h
      = (Ok (RetStream (PyIter [Dumped default_response])), h)
      \/ rag_chain_with_multiturn_except e h = (Ok RetNone, h))
  /\ fst (rag_chain Scenario.embedding_times_out Scenario.env_default Scenario.kw_plain
            "which profile?" [] 4 40 "" empty_heap)
     = Ok (RetStream (PyIter [Dumped default_response]))
  /\ description default_response
     = "Generate the recommended vGPU configuration based on workload requirements and hardware specs."
  /\ Py.contains "timed out" (description default_response) = false
  /\ fst (llm_chain_except Scenario.timeout empty_heap)
     = Ok (RetStream (PyIter [Dumped
            (mkStructuredResponse Schema.default_title
               "Connection timed out while making a request to the NIM endpoint. Verify if the NIM server is available. Unable to generate vGPU configuration."
               Schema.default_parameters)])).
Proof.
  split; [| split].
  - intros e h. destruct (rag_chain_except_returns e h) as [H | [H _]]; auto.
  - intros e h. destruct (rag_chain_with_multiturn_except_returns e h) as [H | [H _]]; auto.
  - repeat split; reflexivity.
Qed.

(* ===================================================================== *)
(** ** Prompt assembly *)
(* ===================================================================== *)

Lemma append_assoc (a b c : string) : ((a ++ b) ++ c = a ++ (b ++ c))%string.
Proof. induction a as [| ch a IH]; simpl; [reflexivity | now rewrite IH]. Qed.

Lemma append_nil_r (a : string) : (a ++ "")%string = a.
Proof. induction a as [| ch a IH]; simpl; [reflexivity | now rewrite IH]. Qed.

Lemma concat_empty_cons (x : string) (xs : list string) :
  String.concat "" (x :: xs) = (x ++ String.concat "" xs)%string.
Proof. destruct xs; simpl; [now rewrite append_nil_r | reflexivity]. Qed.

Lemma fold_system_suffix (history : list Message) (base : string) :
  fold_system base history = (base ++ system_suffix history)%string.
Proof.
  unfold system_suffix. revert base.
  induction history as [| m rest IH]; intro base.
  - simpl. now rewrite append_nil_r.
  - cbn [fold_system filter].
    destruct (String.eqb (role m) "system").
    + rewrite IH. cbn [map]. rewrite concat_empty_cons, !append_assoc. reflexivity.
    + apply IH.
Qed.

Lemma fold_history_split (history : list Message) (base : string)
    (acc : list PromptMessage) :
  fold_history base acc history
  = (fold_system base history, acc ++ history_turns history).
Proof.
  unfold history_turns. revert base acc.
  induction history as [| m rest IH]; intros base acc; simpl.
  - now rewrite app_nil_r.
  - destruct (String.eqb (role m) "system"); simpl.
    + apply IH.
    + rewrite IH, <- app_assoc. reflexivity.
Qed.

(** C9, as stated, fails: in [rag_chain_with_multiturn] the primer message
    follows the history instead of preceding it, and [rag_chain] puts no
    history turn in the prompt at all. *)
Lemma primer_follows_history :
  multiturn_message Scenario.healthy Scenario.env_default Scenario.kw_nemotron
    [Scenario.user "which GPUs are supported?"]
  = [("system", "detailed thinking off");
     ("user", "which GPUs are supported?");
     ("user", "Answer from the context: {context}");
     ("user", "{question}")]
  /\ multiturn_message Scenario.healthy Scenario.env_default Scenario.kw_nemotron
       [Scenario.user "which GPUs are supported?"]
     <> spec_message_sequence
          [("system", "detailed thinking off")]
          [("user", "Answer from the context: {context}")]
          [("user", "which GPUs are supported?")]
  /\ rag_chain_message Scenario.healthy Scenario.env_default Scenario.kw_plain
       [Scenario.user "which GPUs are supported?"]
     = [("system", "Answer from the context: {context}"); ("user", "{question}")].
Proof. repeat split; try reflexivity. discriminate. Qed.

(** C9 (amended): the three generation paths build their message list
    deterministically from the same parts, in different orders.  The system
    message is the template, or the reasoning-mode directive for the
    targeted model family, followed by each system turn of the history; the
    primer (the template as a user message) exists for that family only.
    [llm_chain]: system, primer, the non-system turns with their roles, the
    query placeholder when the query is not empty.  [rag_chain]: system,
    primer, the query placeholder, and no history turn.
    [rag_chain_with_multiturn]: system, the non-system turns, primer, the
    query placeholder.  The context documents are no message: the formatted
    documents reach the chain as the variable [context] next to the
    question. *)
Theorem prompt_assembly :
  forall w env kw query history docs h,
    llm_chain_message w env kw query history
    = [("system", (instructions_base env kw (chat_template w)
                   ++ system_suffix history)%string)]
      ++ primer kw (chat_template w)
      ++ history_turns history
      ++ (if String.eqb query "" then [] else [question_message])
    /\ rag_chain_message w env kw history
       = [("system", (instructions_base env kw (rag_template w)
                      ++ system_suffix history)%string)]
         ++ primer kw (rag_template w)
         ++ [question_message]
    /\ multiturn_message w env kw history
       = [("system", (instructions_base env kw (rag_template w)
                      ++ system_suffix history)%string)]
         ++ history_turns history
         ++ primer kw (rag_template w)
         ++ [question_message]
    /\ trace (snd (run_generator w
                     (stream_structured_multiturn_response
                        (multiturn_message w env kw history) query docs) h))
       = CallChain (multiturn_message w env kw history) query docs :: trace h.
Proof.
  intros w env kw query history docs h.
  unfold llm_chain_message, rag_chain_message, multiturn_message,
    multiturn_prompt_parts, instructions_base, primer.
  repeat split.
  - rewrite fold_history_split, fold_system_suffix. simpl.
    destruct (targets_nemotron kw); reflexivity.
  - rewrite fold_system_suffix. simpl.
    destruct (targets_nemotron kw); reflexivity.
  - rewrite fold_history_split, fold_system_suffix. simpl.
    destruct (targets_nemotron kw); reflexivity.
  - unfold run_generator. rewrite run_try, run_bind. unfold call.
    destruct (chain_invoke w (trace h) _ query docs); reflexivity.
Qed.

(* ===================================================================== *)
(** ** The history window *)
(* ===================================================================== *)

Lemma last_n_length {A : Type} (n : nat) (l : list A) :
  List.length (last_n n l) = Nat.min n (List.length l).
Proof. unfold last_n. rewrite length_skipn. lia. Qed.

Lemma last_n_idempotent {A : Type} (n : nat) (l : list A) :
  last_n n (last_n n l) = last_n n l.
Proof.
  unfold last_n at 1. rewrite last_n_length.
  replace (Nat.min n (List.length l) - n) with 0 by lia. reflexivity.
Qed.

Lemma truthy_length {A : Type} (l : list A) :
  Py.truthy l = negb (Nat.eqb (List.length l) 0).
Proof. destruct l; reflexivity. Qed.

Lemma last_n_truthy {A : Type} (n : nat) (l : list A) :
  1 <= n -> Py.truthy (last_n n l) = Py.truthy l.
Proof.
  intro Hn. rewrite !truthy_length, last_n_length.
  destruct (List.length l); [now rewrite Nat.min_0_r |].
  destruct n; [lia | reflexivity].
Qed.

Lemma history_window_last_n (env : Environ) (history : list Message) :
  (1 <= CONVERSATION_HISTORY env)%Z ->
  history_window env history
  = last_n (Z.to_nat (2 * CONVERSATION_HISTORY env)) history.
Proof.
  intro HK. unfold history_window, Py.slice_from, last_n, Py.len.
  destruct (CONVERSATION_HISTORY env * 2 * -1 <? 0)%Z eqn:E.
  - f_equal. lia.
  - apply Z.ltb_ge in E. lia.
Qed.

Lemma history_window_fits (env : Environ) (history : list Message) :
  (Py.len history <= 2 * CONVERSATION_HISTORY env)%Z ->
  history_window env history = history.
Proof.
  intro Hfit. unfold history_window, Py.slice_from, Py.len in *.
  destruct (CONVERSATION_HISTORY env * 2 * -1 <? 0)%Z eqn:E.
  - replace (Z.to_nat _) with 0 by lia. reflexivity.
  - apply Z.ltb_ge in E.
    assert (List.length history = 0) as Hlen by lia.
    destruct history; [now rewrite skipn_nil | discriminate].
Qed.

Lemma history_window_idempotent (env : Environ) (history : list Message) :
  (1 <= CONVERSATION_HISTORY env)%Z ->
  history_window env (history_window env history) = history_window env history.
Proof. intro HK. rewrite !history_window_last_n by assumption. apply last_n_idempotent. Qed.

Lemma history_window_truthy (env : Environ) (history : list Message) :
  (1 <= CONVERSATION_HISTORY env)%Z ->
  Py.truthy (history_window env history) = Py.truthy history.
Proof.
  intro HK. rewrite history_window_last_n by assumption.
  apply last_n_truthy. lia.
Qed.

(** C8, as stated, fails on the concatenation path of [document_search]:
    with a window of one turn (two messages) and three user turns in the
    history, the retriever is asked for all three turns and the query,
    whereas the window holds the last two only. *)
Lemma search_concatenation_ignores_window :
  let env := Scenario.env_multiturn 1 in
  let history := [Scenario.user "a"; Scenario.user "b"; Scenario.user "c"] in
  document_search Scenario.healthy env Scenario.kw_plain "d" history 4 40 "" empty_heap
  = (Ok [Scenario.doc],
     mkHeap [CallRetriever "a. b. c. d" 4; CallRankingModel 4; CallVectorstore "";
             CallEmbeddingModel] None)
  /\ history_window env history = [Scenario.user "b"; Scenario.user "c"]
  /\ combined_query (history_window env history) "d" = "b. c. d"
  /\ "a. b. c. d" <> "b. c. d".
Proof. repeat split; try reflexivity. discriminate. Qed.

(** The window for a turn count of zero is the whole history, since the
    slice then starts at index 0. *)
Example history_window_zero_turns :
  history_window (Scenario.env_multiturn 0) [Scenario.user "a"; Scenario.assistant "x"]
  = [Scenario.user "a"; Scenario.assistant "x"].
Proof. reflexivity. Qed.

(** C8 (amended): for a turn count [K >= 1] the window is the last [2 * K]
    messages.  [rag_chain_with_multiturn] sees the history only through the
    window, on the rewriting and on the concatenation path alike;
    [document_search] cuts the history to the window on its rewriting path
    only, and on its concatenation path joins the user turns of the whole
    message list. *)
Theorem history_truncation :
  forall w env kw query history reranker_top_k vdb_top_k collection_name h,
    (1 <= CONVERSATION_HISTORY env)%Z ->
    history_window env history
    = last_n (Z.to_nat (2 * CONVERSATION_HISTORY env)) history
    /\ (Py.len (history_window env history) <= 2 * CONVERSATION_HISTORY env)%Z
    /\ rag_chain_with_multiturn w env kw query history
         reranker_top_k vdb_top_k collection_name h
       = rag_chain_with_multiturn w env kw query (history_window env history)
           reranker_top_k vdb_top_k collection_name h
    /\ (enable_query_rewriting kw = true ->
        document_search w env kw query history
          reranker_top_k vdb_top_k collection_name h
        = document_search w env kw query (history_window env history)
            reranker_top_k vdb_top_k collection_name h)
    /\ (enable_query_rewriting kw = false -> history <> [] ->
        search_retriever_query w env kw query history h
        = (Ok (Some (combined_query history query)), h)).
Proof.
  intros w env kw query history rk vk c h HK.
  split; [now apply history_window_last_n |].
  split.
  { rewrite history_window_last_n by assumption.
    unfold Py.len. rewrite last_n_length. lia. }
  split.
  { unfold rag_chain_with_multiturn, rag_chain_with_multiturn_body.
    rewrite history_window_idempotent by assumption. reflexivity. }
  split.
  - intro Hrw. unfold document_search, document_search_body, search_retriever_query.
    rewrite Hrw, history_window_truthy, history_window_idempotent by assumption.
    reflexivity.
  - intros Hrw Hne. unfold search_retriever_query. rewrite Hrw.
    destruct history; [congruence | reflexivity].
Qed.

(** Witness of C8: a window of one turn over a history of three messages. *)
Lemma history_truncation_witness :
  history_window (Scenario.env_multiturn 1)
    [Scenario.user "a"; Scenario.assistant "x"; Scenario.user "b"]
  = [Scenario.assistant "x"; Scenario.user "b"].
Proof.
  rewrite (proj1 (history_truncation Scenario.healthy (Scenario.env_multiturn 1)
                    Scenario.kw_plain "q"
                    [Scenario.user "a"; Scenario.assistant "x"; Scenario.user "b"]
                    4 40 "" empty_heap ltac:(simpl; lia))).
  reflexivity.
Defined.

(* ===================================================================== *)
(** ** Query formulation *)
(* ===================================================================== *)

Lemma user_queries_app (h1 h2 : list Message) :
  user_queries (h1 ++ h2) = user_queries h1 ++ user_queries h2.
Proof. unfold user_queries. now rewrite filter_app, map_app. Qed.

(** A complete multiturn run on the history of the example: the retriever
    is asked for the joined user turns. *)
Example multiturn_retrieves_joined_turns :
  retriever_calls
    (trace (snd (rag_chain_with_multiturn Scenario.healthy (Scenario.env_multiturn 15)
                   Scenario.kw_plain "c"
                   [Scenario.user "a"; Scenario.assistant "x";
                    Scenario.user "b"; Scenario.assistant "y"]
                   4 40 "" empty_heap)))
  = [CallRetriever "a. b. c" 4].
Proof. reflexivity. Qed.

(** The same on the search path, without reflection. *)
Example search_retrieves_joined_turns :
  retriever_calls
    (trace (snd (document_search Scenario.healthy Scenario.env_default
                   Scenario.kw_plain "c"
                   [Scenario.user "a"; Scenario.assistant "x";
                    Scenario.user "b"; Scenario.assistant "y"]
                   4 40 "" empty_heap)))
  = [CallRetriever "a. b. c" 4].
Proof. reflexivity. Qed.

(** With reflection, [document_search] hands [content] to the relevance
    loop: the formulated query is computed but the retriever is asked for
    the raw query. *)
Example search_reflection_retrieves_raw_query :
  retriever_calls
    (trace (snd (document_search Scenario.healthy Scenario.env_reflection
                   Scenario.kw_plain "c"
                   [Scenario.user "a"; Scenario.assistant "x";
                    Scenario.user "b"; Scenario.assistant "y"]
                   4 40 "" empty_heap)))
  = [CallRetriever "c" 4].
Proof. reflexivity. Qed.



(* ===================================================================== *)
(** ** The empty rewritten query *)
(* ===================================================================== *)

Lemma no_actionable_query_iff (q : string) :
  no_actionable_query q = true <-> q = "" \/ Py.replace_dquote q = "''".
Proof.
  unfold no_actionable_query. rewrite orb_true_iff, String.eqb_eq, Nat.eqb_eq.
  split; intros [H | H]; auto.
  - left. destruct q; [reflexivity | discriminate].
  - right. now subst.
Qed.

Lemma open_search_trace w kw rk vk c h r h1 :
  open_search w kw rk vk c h = (Ok r, h1) ->
  trace h1 = [CallRankingModel rk; CallVectorstore c; CallEmbeddingModel] ++ trace h.
Proof.
  unfold open_search. rewrite run_bind. unfold call at 1.
  destruct (get_embedding_model w (trace h)); [| discriminate].
  rewrite run_bind. unfold call at 1. simpl trace.
  destruct (get_vectorstore w _ c) as [[|] |]; simpl; try discriminate.
  rewrite run_bind. unfold call at 1. simpl.
  destruct (get_ranking_model w _ rk); simpl; [| discriminate].
  intro H. inversion H. reflexivity.
Qed.

Lemma open_generation_trace w kw rk vk c h r h1 :
  open_generation w kw rk vk c h = (Ok r, h1) ->
  trace h1 = [CallRankingModel rk; CallLLM; CallVectorstore c; CallEmbeddingModel]
             ++ trace h.
Proof.
  unfold open_generation. rewrite run_bind. unfold call at 1.
  destruct (get_embedding_model w (trace h)); [| discriminate].
  rewrite run_bind. unfold call at 1. simpl trace.
  destruct (get_vectorstore w _ c) as [[|] |]; simpl; try discriminate.
  rewrite run_bind. unfold call at 1. simpl.
  destruct (get_llm w _); simpl; [| discriminate].
  rewrite run_bind. unfold call at 1. simpl.
  destruct (get_ranking_model w _ rk); simpl; [| discriminate].
  intro H. inversion H. reflexivity.
Qed.

Lemma rewrite_query_trace w ch q h r h2 :
  rewrite_query w ch q h = (r, h2) -> trace h2 = CallQueryRewriter ch q :: trace h.
Proof. unfold rewrite_query, call. intro H. inversion H. reflexivity. Qed.

Lemma history_window_truthy_inv (env : Environ) (history : list Message) :
  Py.truthy (history_window env history) = true -> Py.truthy history = true.
Proof.
  destruct history; [| reflexivity].
  unfold history_window, Py.slice_from. now rewrite skipn_nil.
Qed.

(** C5, as stated, fails on the generation path: when the rewriter answers
    with the empty string, [rag_chain_with_multiturn] returns a bare stream
    whose only item is the empty string, which is the serialization of no
    response, and no context list. *)
Lemma empty_rewrite_answer_is_no_response :
  rag_chain_with_multiturn Scenario.rewrites_to_nothing (Scenario.env_multiturn 15)
    Scenario.kw_rewriting "and how much memory?"
    [Scenario.user "which GPUs are supported?"; Scenario.assistant "L40S"]
    4 40 "" empty_heap
  = (Ok (RetStream (PyIter [Text ""])),
     mkHeap [CallQueryRewriter [("user", "which GPUs are supported?");
                                ("assistant", "L40S")] "and how much memory?";
             CallRankingModel 4; CallLLM; CallVectorstore ""; CallEmbeddingModel] None)
  /\ (forall sr, Text "" <> Dumped sr)
  /\ (forall s context, RetStream (PyIter [Text ""]) <> RetPair s context).
Proof. repeat split; try reflexivity; discriminate. Qed.

(** C5 (amended): when the rewritten query is the empty string or a pair of
    quote characters, [document_search] returns the empty list and
    [rag_chain_with_multiturn] returns a bare stream holding the empty string
    (not a response, and without a context list); in both, the rewriter call
    is the last collaborator call: neither the retriever nor the answer
    chain is invoked. *)
Theorem empty_rewrite_short_circuit :
  forall w env kw query history reranker_top_k vdb_top_k collection_name
         h ranker top_k h1 rewritten h2,
    enable_query_rewriting kw = true ->
    Py.truthy (history_window env history) = true ->
    rewrite_query w (history_turns (history_window env history)) query h1
    = (Ok rewritten, h2) ->
    no_actionable_query rewritten = true ->
    (open_search w kw reranker_top_k vdb_top_k collection_name h
     = (Ok (ranker, top_k), h1) ->
     document_search w env kw query history reranker_top_k vdb_top_k collection_name h
     = (Ok [], h2)
     /\ retriever_calls (trace h2) = retriever_calls (trace h))
    /\
    (open_generation w kw reranker_top_k vdb_top_k collection_name h
     = (Ok (ranker, top_k), h1) ->
     rag_chain_with_multiturn w env kw query history
       reranker_top_k vdb_top_k collection_name h
     = (Ok (RetStream (PyIter [Text ""])), h2)
     /\ retriever_calls (trace h2) = retriever_calls (trace h)
     /\ generation_calls (trace h2) = generation_calls (trace h)).
Proof.
  intros w env kw query history rk vk c h ranker top_k h1 rewritten h2
         Hrw Hhist Hrewrite Hempty.
  pose proof (rewrite_query_trace _ _ _ _ _ _ Hrewrite) as Ht2.
  split; intro Hopen.
  - split.
    + unfold document_search. rewrite run_try.
      unfold document_search_body. rewrite run_bind, Hopen, run_bind.
      unfold search_retriever_query.
      rewrite (history_window_truthy_inv _ _ Hhist), Hrw, run_bind.
      change (search_conversation_history (history_window env history))
        with (history_turns (history_window env history)).
      rewrite Hrewrite, Hempty. reflexivity.
    + rewrite Ht2, (open_search_trace _ _ _ _ _ _ _ _ Hopen). reflexivity.
  - split; [| split].
    + unfold rag_chain_with_multiturn. rewrite run_try.
      unfold rag_chain_with_multiturn_body. rewrite run_bind, Hopen.
      unfold multiturn_prompt_parts. rewrite fold_history_split.
      cbn [app]. rewrite run_bind. unfold multiturn_retriever_query.
      rewrite Hhist, Hrw, run_bind, Hrewrite, Hempty. reflexivity.
    + rewrite Ht2, (open_generation_trace _ _ _ _ _ _ _ _ Hopen). reflexivity.
    + rewrite Ht2, (open_generation_trace _ _ _ _ _ _ _ _ Hopen). reflexivity.
Qed.

(** Witness of C5: the search path in the world whose rewriter answers with
    the empty string. *)
Lemma empty_rewrite_short_circuit_witness :
  document_search Scenario.rewrites_to_nothing Scenario.env_default
    Scenario.kw_rewriting "and how much memory?"
    [Scenario.user "which GPUs are supported?"; Scenario.assistant "L40S"]
    4 40 "" empty_heap
  = (Ok [],
     mkHeap [CallQueryRewriter [("user", "which GPUs are supported?");
                                ("assistant", "L40S")] "and how much memory?";
             CallRankingModel 4; CallVectorstore ""; CallEmbeddingModel] None).
Proof.
  apply (proj1 (empty_rewrite_short_circuit Scenario.rewrites_to_nothing
                  Scenario.env_default Scenario.kw_rewriting "and how much memory?"
                  [Scenario.user "which GPUs are supported?"; Scenario.assistant "L40S"]
                  4 40 "" empty_heap true 4%Z
                  (mkHeap [CallRankingModel 4; CallVectorstore ""; CallEmbeddingModel] None)
                  ""
                  (mkHeap [CallQueryRewriter [("user", "which GPUs are supported?");
                                              ("assistant", "L40S")]
                             "and how much memory?";
                           CallRankingModel 4; CallVectorstore ""; CallEmbeddingModel]
                          None)
                  eq_refl eq_refl eq_refl eq_refl)).
  reflexivity.
Defined.

(* ===================================================================== *)
(** ** Shapes of the returned values *)
(* ===================================================================== *)

Lemma hoare_any {A : Type} (P : Heap -> Prop) (Q : result A -> Heap -> Prop) (m : M A) :
  (forall r h, Q r h) -> hoare P m Q.
Proof. intros H h _. apply H. Qed.

(** Skips a stage whose outcome does not matter for the postcondition at
    hand, as long as a raise satisfies it. *)
Ltac hoare_skip :=
  eapply hoare_bind with (R := fun _ _ => True);
  [ apply hoare_any; intros [? | ?] ?; exact I | intro ].

Lemma run_generator_one_response (w : World) (g : GeneratorBody) (h : Heap) :
  exists sr, fst (run_generator w g h) = Ok [Dumped sr].
Proof.
  destruct g; unfold run_generator; rewrite run_try, run_bind; unfold call;
    match goal with |- context [chain_invoke ?w ?t ?m ?q ?d] =>
      destruct (chain_invoke w t m q d) end;
    eexists; reflexivity.
Qed.

Lemma generator_one_response (w : World) (g : GeneratorBody) :
  one_response_stream w (PyGenerator g).
Proof. intro h. apply run_generator_one_response. Qed.

Lemma iter_one_response (w : World) (sr : StructuredResponse) :
  one_response_stream w (PyIter [Dumped sr]).
Proof. intro h. exists sr. reflexivity. Qed.

Lemma one_response_one_item (w : World) (s : Stream) :
  one_response_stream w s -> one_item_stream w s.
Proof. intros H h. destruct (H h) as [sr Hsr]. eauto. Qed.

Lemma dumped_iter_shape (w : World) (data : list (string * json)) :
  hoare (fun _ => True) (dumped_iter data)
        (fun r _ => match r with Ok s => one_response_stream w s | Raise _ => True end).
Proof.
  intros h _. unfold dumped_iter. rewrite run_bind. unfold lift.
  destruct (Schema.init data); simpl; [apply iter_one_response | exact I].
Qed.

Lemma rag_chain_answer_shape w env message query docs context :
  hoare (fun _ => True) (rag_chain_answer w env message query docs context)
        (fun r _ => match r with Ok v => response_pair w v | Raise _ => True end).
Proof.
  unfold rag_chain_answer. hoare_skip. destruct a.
  - hoare_skip. hoare_skip. destruct a0 as [final_response is_grounded].
    eapply hoare_bind with (R := fun s _ => one_response_stream w s).
    + apply dumped_iter_shape.
    + intro s. apply hoare_ret. intros h Hs. exists s, context. auto.
  - apply hoare_ret. intros h _. do 2 eexists. split; [reflexivity |].
    apply generator_one_response.
Qed.

Lemma multiturn_answer_shape w env message query docs context :
  hoare (fun _ => True) (multiturn_answer w env message query docs context)
        (fun r _ => match r with Ok v => response_pair w v | Raise _ => True end).
Proof.
  unfold multiturn_answer. hoare_skip. destruct a.
  - hoare_skip. hoare_skip. destruct a0 as [final_response is_grounded].
    eapply hoare_bind with (R := fun s _ => one_response_stream w s).
    + apply dumped_iter_shape.
    + intro s. apply hoare_ret. intros h Hs. exists s, context. auto.
  - apply hoare_ret. intros h _. do 2 eexists. split; [reflexivity |].
    apply generator_one_response.
Qed.

Lemma rag_chain_body_shape w env kw query history rk vk c :
  hoare (fun _ => True) (rag_chain_body w env kw query history rk vk c)
        (fun r _ => match r with Ok v => response_pair w v | Raise _ => True end).
Proof.
  unfold rag_chain_body. hoare_skip. destruct a as [ranker top_k].
  hoare_skip. apply rag_chain_answer_shape.
Qed.

Lemma rag_chain_with_multiturn_body_shape w env kw query history rk vk c :
  hoare (fun _ => True) (rag_chain_with_multiturn_body w env kw query history rk vk c)
        (fun r _ => match r with
                    | Ok v => response_pair w v \/ v = RetStream (PyIter [Text ""])
                    | Raise _ => True
                    end).
Proof.
  unfold rag_chain_with_multiturn_body. hoare_skip. destruct a as [ranker top_k].
  destruct (multiturn_prompt_parts w env kw (history_window env history))
    as [[system_message conversation_history] user_message].
  hoare_skip. destruct a as [retriever_query |].
  - hoare_skip.
    eapply hoare_weaken; [apply multiturn_answer_shape | auto |].
    intros [v | e] h; auto.
  - apply hoare_ret. auto.
Qed.

(** C10, as stated, fails: the multiturn path has a return that no
    exception reaches and that is no pair, the one taken when the rewritten
    query is empty. *)
Lemma short_circuit_returns_no_pair :
  fst (rag_chain_with_multiturn_body Scenario.rewrites_to_nothing
         (Scenario.env_multiturn 15) Scenario.kw_rewriting "and how much memory?"
         [Scenario.user "which GPUs are supported?"; Scenario.assistant "L40S"]
         4 40 "" empty_heap)
  = Ok (RetStream (PyIter [Text ""]))
  /\ ~ response_pair Scenario.rewrites_to_nothing (RetStream (PyIter [Text ""])).
Proof.
  split; [reflexivity |]. intros (s & context & Heq & _). discriminate.
Qed.

(** C10 (amended): a result of the body of [rag_chain] is a pair of a stream
    that yields one serialized response and a document list; a result of
    the body of [rag_chain_with_multiturn] is such a pair or, when the
    rewritten query is empty, a bare stream holding the empty string; a
    handler of either function, for every failure other than a connection
    error whose text lacks the connection-pool marker, returns a bare
    stream holding one serialized response and no document list. *)
Theorem return_shapes :
  forall w env kw query history reranker_top_k vdb_top_k collection_name h,
    (forall r h',
        rag_chain_body w env kw query history reranker_top_k vdb_top_k collection_name h
        = (Ok r, h') ->
        response_pair w r)
    /\ (forall r h',
        rag_chain_with_multiturn_body w env kw query history
          reranker_top_k vdb_top_k collection_name h = (Ok r, h') ->
        response_pair w r \/ r = RetStream (PyIter [Text ""]))
    /\ (forall e,
        exn_class e <> ConnectionError
        \/ Py.contains "HTTPConnectionPool" (exn_str e) = true ->
        rag_chain_except e h = (Ok (RetStream (PyIter [Dumped default_response])), h)
        /\ rag_chain_with_multiturn_except e h
           = (Ok (RetStream (PyIter [Dumped default_response])), h)).
Proof.
  intros w env kw query history rk vk c h. repeat split.
  - intros r h' Hrun.
    pose proof (rag_chain_body_shape w env kw query history rk vk c h I) as H.
    rewrite Hrun in H. exact H.
  - intros r h' Hrun.
    pose proof (rag_chain_with_multiturn_body_shape w env kw query history rk vk c h I) as H.
    rewrite Hrun in H. exact H.
  - destruct (rag_chain_except_returns e h) as [Hr | (_ & Hc & Hp)]; [exact Hr |].
    destruct H; congruence.
  - destruct (rag_chain_with_multiturn_except_returns e h) as [Hr | (_ & Hc & Hp)];
      [exact Hr |].
    destruct H; congruence.
Qed.

(** Witness of C10: a plain run of [rag_chain] in the healthy world. *)
Lemma return_shapes_witness :
  response_pair Scenario.healthy
    (RetPair (PyGenerator (stream_structured_rag_response
                             [("system", "Answer from the context: {context}");
                              ("user", "{question}")]
                             "which profile?" ["L40S supports the 8Q profile"]))
             [Scenario.doc]).
Proof.
  apply (proj1 (return_shapes Scenario.healthy Scenario.env_default Scenario.kw_plain
                  "which profile?" [] 4 40 "" empty_heap)
           _ (mkHeap [CallRetriever "which profile?" 4; CallRankingModel 4; CallLLM;
                      CallVectorstore ""; CallEmbeddingModel] None)).
  reflexivity.
Defined.

(* ===================================================================== *)
(** ** Totality of the call paths *)
(* ===================================================================== *)

Lemma llm_chain_returns w env kw query history h :
  exists s, fst (llm_chain w env kw query history h) = Ok (RetStream s)
            /\ one_response_stream w s.
Proof.
  unfold llm_chain. rewrite run_try. unfold llm_chain_body. rewrite run_bind.
  unfold call. destruct (get_llm w (trace h)) as [[] | e]; simpl.
  - eexists. split; [reflexivity | apply generator_one_response].
  - destruct (llm_chain_except_returns e
                (mkHeap (CallLLM :: trace h) (reflection_counter h))) as [d Hd].
    rewrite Hd. eexists. split; [reflexivity | apply iter_one_response].
Qed.

Lemma response_pair_one_item w r : response_pair w r -> none_or_one_item w r.
Proof.
  intros (s & context & -> & Hs). simpl. now apply one_response_one_item.
Qed.

Lemma empty_text_one_item w : one_item_stream w (PyIter [Text ""]).
Proof. intro h. eexists. reflexivity. Qed.

Lemma rag_chain_with_multiturn_returns w env kw query history rk vk c h :
  exists r, fst (rag_chain_with_multiturn w env kw query history rk vk c h) = Ok r
            /\ none_or_one_item w r.
Proof.
  unfold rag_chain_with_multiturn. rewrite run_try.
  pose proof (rag_chain_with_multiturn_body_shape w env kw query history rk vk c h I) as H.
  destruct (rag_chain_with_multiturn_body w env kw query history rk vk c h)
    as [[r | e] h']; simpl in *.
  - exists r. split; [reflexivity |].
    destruct H as [H | ->]; [now apply response_pair_one_item | apply empty_text_one_item].
  - destruct (rag_chain_with_multiturn_except_returns e h') as [Hr | [Hr _]];
      rewrite Hr; eexists; (split; [reflexivity |]); simpl; auto.
    apply one_response_one_item, iter_one_response.
Qed.

Lemma rag_chain_returns w env kw query history rk vk c h :
  exists r, fst (rag_chain w env kw query history rk vk c h) = Ok r
            /\ none_or_one_item w r.
Proof.
  unfold rag_chain. destruct (ENABLE_MULTITURN env).
  - apply rag_chain_with_multiturn_returns.
  - rewrite run_try.
    pose proof (rag_chain_body_shape w env kw query history rk vk c h I) as H.
    destruct (rag_chain_body w env kw query history rk vk c h) as [[r | e] h']; simpl in *.
    + exists r. split; [reflexivity | now apply response_pair_one_item].
    + destruct (rag_chain_except_returns e h') as [Hr | [Hr _]];
        rewrite Hr; eexists; (split; [reflexivity |]); simpl; auto.
      apply one_response_one_item, iter_one_response.
Qed.

(** A connection error whose text lacks the connection-pool marker falls
    through its handler: the call yields [None]. *)
Example connection_error_returns_none :
  fst (rag_chain Scenario.connection_refused Scenario.env_default Scenario.kw_plain
         "which profile?" [] 4 40 "" empty_heap)
  = Ok RetNone.
Proof. reflexivity. Qed.



(* ===================================================================== *)
(** ** The shared reflection budget *)
(* ===================================================================== *)

Lemma keeps_retrieve_once w query k rerank :
  keeps_counter (Reflection.retrieve_once w query k rerank).
Proof. unfold Reflection.retrieve_once. auto 6 with keeps. Qed.

Lemma keeps_verdict ev judge : keeps_counter (Reflection.verdict ev judge).
Proof. unfold Reflection.verdict. auto 6 with keeps. Qed.

Lemma keeps_dumped_iter data : keeps_counter (dumped_iter data).
Proof. unfold dumped_iter. auto 6 with keeps. Qed.

Lemma keeps_get_counter : keeps_counter Reflection.get_counter.
Proof.
  intro h. unfold Reflection.get_counter.
  destruct (reflection_counter h) eqn:E; simpl; congruence.
Qed.

#[local] Hint Resolve keeps_retrieve_once keeps_verdict keeps_dumped_iter
  keeps_get_counter : keeps.

Ltac close_between c :=
  exists c; split; [congruence | split; [reflexivity | lia]].

Lemma relevance_loop_budget w query k rerank :
  forall n h c,
    reflection_counter h = Some c ->
    counter_between (max_loops c) (current_count c) (current_count c + Z.of_nat n)
      (snd (Reflection.relevance_loop w n query k rerank h)).
Proof.
  induction n as [| n IH]; intros h c Hc; cbn [Reflection.relevance_loop];
    rewrite run_bind;
    pose proof (keeps_retrieve_once w query k rerank h) as K1;
    destruct (Reflection.retrieve_once w query k rerank h) as [[docs | e] h1];
    simpl in K1 |- *; try (close_between c);
    rewrite run_bind;
    match goal with |- context [Reflection.verdict ?ev ?j h1] =>
      pose proof (keeps_verdict ev j h1) as K2;
      destruct (Reflection.verdict ev j h1) as [[[|] | e] h2]
    end; simpl in K2 |- *; try (close_between c).
  rewrite run_bind. unfold Reflection.increment at 1.
  assert (Hc2 : reflection_counter h2 = Some c) by congruence.
  rewrite Hc2.
  destruct (IH (mkHeap (trace h2)
                  (Some (mkReflectionCounter (max_loops c) (current_count c + 1))))
               (mkReflectionCounter (max_loops c) (current_count c + 1)) eq_refl)
    as (c' & Hc' & Hmax & Hrange).
  simpl in Hmax, Hrange. exists c'. repeat split; auto; lia.
Qed.

Lemma groundedness_loop_budget w docs :
  forall n response h c,
    reflection_counter h = Some c ->
    counter_between (max_loops c) (current_count c) (current_count c + Z.of_nat n)
      (snd (Reflection.groundedness_loop w n response docs h)).
Proof.
  induction n as [| n IH]; intros response h c Hc; cbn [Reflection.groundedness_loop];
    rewrite run_bind;
    match goal with |- context [Reflection.verdict ?ev ?j h] =>
      pose proof (keeps_verdict ev j h) as K2;
      destruct (Reflection.verdict ev j h) as [[[|] | e] h2]
    end; simpl in K2 |- *; try (close_between c).
  rewrite run_bind. unfold Reflection.increment at 1.
  assert (Hc2 : reflection_counter h2 = Some c) by congruence.
  rewrite Hc2. rewrite run_bind. unfold call at 1. simpl trace.
  destruct (regenerate w (trace h2) response docs) as [response' | e]; simpl.
  - destruct (IH response'
                (mkHeap (CallRegenerate response docs :: trace h2)
                   (Some (mkReflectionCounter (max_loops c) (current_count c + 1))))
                (mkReflectionCounter (max_loops c) (current_count c + 1)) eq_refl)
      as (c' & Hc' & Hmax & Hrange).
    simpl in Hmax, Hrange. exists c'. repeat split; auto; lia.
  - eexists. split; [reflexivity |]. simpl. split; [reflexivity | lia].
Qed.

Lemma hoare_keeps {A : Type} (budget : Z) (m : M A) :
  keeps_counter m ->
  hoare (counter_within budget) m (fun _ h => counter_within budget h).
Proof. intros K h Hh. unfold counter_within in *. now rewrite K. Qed.

Lemma hoare_inv_bind {A B : Type} (I : Heap -> Prop) (m : M A) (k : A -> M B) :
  hoare I m (fun _ h => I h) ->
  (forall a, hoare I (k a) (fun _ h => I h)) ->
  hoare I (bind m k) (fun _ h => I h).
Proof.
  intros Hm Hk. eapply hoare_bind with (R := fun _ h => I h); [| exact Hk].
  intros h Hh. specialize (Hm h Hh). destruct (fst (m h)); exact Hm.
Qed.

Lemma hoare_inv_try {A : Type} (I : Heap -> Prop) (body : M A) (handler : Exn -> M A) :
  hoare I body (fun _ h => I h) ->
  (forall e, hoare I (handler e) (fun _ h => I h)) ->
  hoare I (try_except body handler) (fun _ h => I h).
Proof.
  intros Hm Hk. eapply hoare_try with (R := fun _ h => I h); [| exact Hk].
  intros h Hh. specialize (Hm h Hh). destruct (fst (body h)); exact Hm.
Qed.

Lemma between_within budget lo hi h :
  (0 <= lo)%Z -> (hi <= budget)%Z ->
  counter_between budget lo hi h -> counter_within budget h.
Proof.
  intros Hlo Hhi (c & Hc & Hmax & Hrange). unfold counter_within. rewrite Hc.
  split; [exact Hmax | lia].
Qed.

Lemma new_counter_budget (budget : Z) (P : Heap -> Prop) :
  (0 <= budget)%Z ->
  hoare P (Reflection.new_counter budget) (fun _ h => counter_within budget h).
Proof. intros Hb h _. simpl. unfold counter_within. simpl. lia. Qed.

Lemma check_context_relevance_budget w query k ranker enable budget :
  hoare (counter_within budget)
        (Reflection.check_context_relevance w query k ranker enable)
        (fun _ h => counter_within budget h).
Proof.
  intros h Hh. unfold Reflection.check_context_relevance. rewrite run_bind.
  unfold Reflection.get_counter at 1. unfold counter_within in Hh.
  destruct (reflection_counter h) as [c |] eqn:Hc.
  - destruct Hh as [Hmax Hrange].
    pose proof (relevance_loop_budget w query k
                  (ranker && match enable with
                             | Some b => b
                             | None => reflection_rerank_default w
                             end)
                  (Z.to_nat (Reflection.remaining c)) h c Hc) as Hloop.
    eapply between_within; [| | rewrite <- Hmax; exact Hloop];
      unfold Reflection.remaining; lia.
  - simpl. unfold counter_within. now rewrite Hc.
Qed.

Lemma check_response_groundedness_budget w response docs budget :
  hoare (counter_within budget)
        (Reflection.check_response_groundedness w response docs)
        (fun _ h => counter_within budget h).
Proof.
  intros h Hh. unfold Reflection.check_response_groundedness. rewrite run_bind.
  unfold Reflection.get_counter at 1. unfold counter_within in Hh.
  destruct (reflection_counter h) as [c |] eqn:Hc.
  - destruct Hh as [Hmax Hrange].
    pose proof (groundedness_loop_budget w docs
                  (Z.to_nat (Reflection.remaining c)) response h c Hc) as Hloop.
    eapply between_within; [| | rewrite <- Hmax; exact Hloop];
      unfold Reflection.remaining; lia.
  - simpl. unfold counter_within. now rewrite Hc.
Qed.

Lemma retrieve_context_budget w env kw query ranker top_k :
  (0 <= MAX_REFLECTION_LOOP env)%Z ->
  hoare (counter_within (MAX_REFLECTION_LOOP env))
        (retrieve_context w env kw query ranker top_k)
        (fun _ h => counter_within (MAX_REFLECTION_LOOP env) h).
Proof.
  intro Hb. unfold retrieve_context. destruct (ENABLE_REFLECTION env).
  - apply hoare_inv_bind; [now apply new_counter_budget | intros _].
    apply hoare_inv_bind; [apply check_context_relevance_budget | intros [ctx rel]].
    apply hoare_keeps. auto with keeps.
  - apply hoare_keeps. auto 8 with keeps.
Qed.

Lemma keeps_reflection_budget_left env : keeps_counter (reflection_budget_left env).
Proof. unfold reflection_budget_left. auto 8 with keeps. Qed.

#[local] Hint Resolve keeps_reflection_budget_left : keeps.

Lemma multiturn_answer_budget w env message query docs context budget :
  hoare (counter_within budget)
        (multiturn_answer w env message query docs context)
        (fun _ h => counter_within budget h).
Proof.
  unfold multiturn_answer.
  apply hoare_inv_bind; [apply hoare_keeps; auto with keeps | intros [|]].
  - apply hoare_inv_bind; [apply hoare_keeps; auto with keeps | intro initial].
    apply hoare_inv_bind; [apply check_response_groundedness_budget | intros [final ok]].
    apply hoare_keeps. auto 8 with keeps.
  - apply hoare_keeps. auto with keeps.
Qed.

Lemma rag_chain_answer_budget w env message query docs context budget :
  hoare (counter_within budget)
        (rag_chain_answer w env message query docs context)
        (fun _ h => counter_within budget h).
Proof.
  unfold rag_chain_answer.
  apply hoare_inv_bind; [apply hoare_keeps; auto with keeps | intros [|]].
  - apply hoare_inv_bind; [apply hoare_keeps; auto with keeps | intro initial].
    apply hoare_inv_bind; [apply check_response_groundedness_budget | intros [final ok]].
    apply hoare_keeps. auto 8 with keeps.
  - apply hoare_keeps. auto with keeps.
Qed.

Lemma keeps_open_generation w kw rk vk c : keeps_counter (open_generation w kw rk vk c).
Proof. unfold open_generation. auto 12 with keeps. Qed.

Lemma keeps_multiturn_retriever_query w kw query history ch :
  keeps_counter (multiturn_retriever_query w kw query history ch).
Proof. unfold multiturn_retriever_query, rewrite_query. auto 12 with keeps. Qed.

Lemma keeps_rag_chain_except e : keeps_counter (rag_chain_except e).
Proof. unfold rag_chain_except. destruct (exn_class e); auto 12 with keeps. Qed.

Lemma keeps_rag_chain_with_multiturn_except e :
  keeps_counter (rag_chain_with_multiturn_except e).
Proof. unfold rag_chain_with_multiturn_except. destruct (exn_class e); auto 12 with keeps. Qed.

Lemma rag_chain_with_multiturn_budget w env kw query history rk vk c :
  (0 <= MAX_REFLECTION_LOOP env)%Z ->
  hoare (counter_within (MAX_REFLECTION_LOOP env))
        (rag_chain_with_multiturn w env kw query history rk vk c)
        (fun _ h => counter_within (MAX_REFLECTION_LOOP env) h).
Proof.
  intro Hb. unfold rag_chain_with_multiturn.
  apply hoare_inv_try;
    [| intro e; apply hoare_keeps, keeps_rag_chain_with_multiturn_except].
  unfold rag_chain_with_multiturn_body.
  apply hoare_inv_bind; [apply hoare_keeps, keeps_open_generation | intros [ranker top_k]].
  destruct (multiturn_prompt_parts w env kw (history_window env history))
    as [[system_message conversation_history] user_message].
  apply hoare_inv_bind;
    [apply hoare_keeps, keeps_multiturn_retriever_query | intros [retriever_query |]].
  - apply hoare_inv_bind; [now apply retrieve_context_budget | intro ctx].
    apply multiturn_answer_budget.
  - apply hoare_keeps. auto with keeps.
Qed.

Lemma rag_chain_budget w env kw query history rk vk c :
  (0 <= MAX_REFLECTION_LOOP env)%Z ->
  hoare (counter_within (MAX_REFLECTION_LOOP env))
        (rag_chain w env kw query history rk vk c)
        (fun _ h => counter_within (MAX_REFLECTION_LOOP env) h).
Proof.
  intro Hb. unfold rag_chain. destruct (ENABLE_MULTITURN env).
  - now apply rag_chain_with_multiturn_budget.
  - apply hoare_inv_try; [| intro e; apply hoare_keeps, keeps_rag_chain_except].
    unfold rag_chain_body.
    apply hoare_inv_bind; [apply hoare_keeps, keeps_open_generation | intros [ranker top_k]].
    apply hoare_inv_bind; [now apply retrieve_context_budget | intro ctx].
    apply rag_chain_answer_budget.
Qed.

(** Scenario B of the specification: reflection with a budget of three and
    a relevance judge that never accepts.  The retriever is asked four
    times (the first pass and three retries), the counter ends at three of
    three, and the answer is the lazy first-pass stream: no generation or
    groundedness call has been made when the function returns. *)
Example relevance_exhausts_budget :
  let run := rag_chain_with_multiturn Scenario.never_satisfied
               Scenario.env_reflective_multiturn Scenario.kw_plain
               "which profile?" [] 4 40 "" empty_heap in
  fst run
  = Ok (RetPair (PyGenerator (stream_structured_multiturn_response
                                [("system", "Answer from the context: {context}");
                                 ("user", "{question}")]
                                "which profile?" ["L40S supports the 8Q profile"]))
                [Scenario.doc])
  /\ reflection_counter (snd run) = Some (mkReflectionCounter 3 3)
  /\ List.length (retriever_calls (trace (snd run))) = 4
  /\ generation_calls (trace (snd run)) = [].
Proof. repeat split; reflexivity. Qed.

(** The other extreme: the context is accepted at once and the groundedness
    judge never accepts.  The whole budget goes to the groundedness loop. *)
Example groundedness_exhausts_budget :
  let run := rag_chain_with_multiturn Scenario.never_grounded
               Scenario.env_reflective_multiturn Scenario.kw_plain
               "which profile?" [] 4 40 "" empty_heap in
  reflection_counter (snd run) = Some (mkReflectionCounter 3 3)
  /\ List.length (retriever_calls (trace (snd run))) = 1
  /\ List.length (generation_calls (trace (snd run))) = 8.
Proof. repeat split; reflexivity. Qed.



(* ===================================================================== *)
(** ** Further properties: the response model *)
(* ===================================================================== *)

Lemma get_app_last {V : Type} (key k : string) (v : V) (data : list (string * V)) :
  Py.get key (data ++ [(k, v)])
  = match Py.get key data with
    | Some x => Some x
    | None => if String.eqb key k then Some v else None
    end.
Proof.
  induction data as [| [k' v'] rest IH]; simpl.
  - reflexivity.
  - destruct (String.eqb key k'); [reflexivity | exact IH].
Qed.

Lemma get_set_if_missing (key k : string) (v : json) (data : list (string * json)) :
  Py.get key (Schema.set_if_missing k v data)
  = match Py.get key data with
    | Some x => Some x
    | None => if String.eqb key k then Some v else None
    end.
Proof.
  unfold Schema.set_if_missing.
  destruct (Py.get k data) as [x |] eqn:Hk.
  - destruct (Py.get key data) eqn:Hkey; [reflexivity |].
    destruct (String.eqb_spec key k) as [-> | _]; [congruence | reflexivity].
  - apply get_app_last.
Qed.

(** The outcome of [__init__] in terms of the three declared keywords. *)
Lemma init_by_fields (data : list (string * json)) :
  Schema.init data
  = match keyword_or "title" (JStr Schema.default_title) data,
          keyword_or "description" (JStr Schema.default_description) data,
          keyword_or "parameters" Schema.default_parameters data with
    | JStr t, JStr d, JObj p => Ok (mkStructuredResponse t d (JObj p))
    | _, _, _ => Raise Schema.validation_error
    end.
Proof.
  unfold Schema.init, Schema.validate, keyword_or.
  rewrite !get_set_if_missing. cbn [String.eqb Ascii.eqb Bool.eqb andb].
  destruct (Py.get "title" data) as [[] |];
    destruct (Py.get "description" data) as [[] |];
    destruct (Py.get "parameters" data) as [[] |]; reflexivity.
Qed.

(** X1: keywords that name no field of [StructuredResponse] have no effect:
    two keyword dictionaries that agree on [title], [description] and
    [parameters] build the same response, or fail alike. *)
Theorem init_ignores_undeclared_keywords :
  forall data1 data2,
    Py.get "title" data1 = Py.get "title" data2 ->
    Py.get "description" data1 = Py.get "description" data2 ->
    Py.get "parameters" data1 = Py.get "parameters" data2 ->
    Schema.init data1 = Schema.init data2.
Proof.
  intros data1 data2 Ht Hd Hp. rewrite !init_by_fields. unfold keyword_or.
  now rewrite Ht, Hd, Hp.
Qed.

Lemma init_ignores_undeclared_keywords_witness :
  Schema.init [("response", JStr "timed out"); ("sources_used", JBool true)]
  = Schema.init [].
Proof.
  apply init_ignores_undeclared_keywords; reflexivity.
Defined.

(** X2: a [description] given as a string is kept, with the defaults for the
    keywords that are absent, whatever other keywords come with it; a
    [description] that is not a string is rejected with a validation
    error. *)
Theorem init_description_kept_or_rejected :
  forall data v,
    Py.get "description" data = Some v ->
    Py.get "title" data = None ->
    Py.get "parameters" data = None ->
    match v with
    | JStr d =>
        Schema.init data
        = Ok (mkStructuredResponse Schema.default_title d Schema.default_parameters)
    | _ => Schema.init data = Raise Schema.validation_error
    end.
Proof.
  intros data v Hd Ht Hp. rewrite init_by_fields. unfold keyword_or.
  rewrite Hd, Ht, Hp. destruct v; reflexivity.
Qed.

Lemma init_description_kept_or_rejected_witness :
  Schema.init [("sources_used", JBool true); ("description", JInt 7)]
  = Raise Schema.validation_error.
Proof.
  apply (init_description_kept_or_rejected
           [("sources_used", JBool true); ("description", JInt 7)] (JInt 7)
           eq_refl eq_refl eq_refl).
Defined.

(* ===================================================================== *)
(** ** Further properties: ingestion *)
(* ===================================================================== *)

(** X3: when the loader finds no document, [ingest_docs] returns without an
    error and without splitting, opening the vector store or adding
    anything: the loader call is its only call. *)
Theorem ingest_nothing_loaded :
  forall w data_dir collection_name h,
    load_documents w (trace h) data_dir = Ok [] ->
    ingest_docs w data_dir collection_name h
    = (Ok tt, mkHeap (CallLoader data_dir :: trace h) (reflection_counter h)).
Proof.
  intros w data_dir c h Hload.
  unfold ingest_docs, ingest_docs_body. rewrite run_try, run_bind.
  unfold call at 1. rewrite Hload. reflexivity.
Qed.

Lemma ingest_nothing_loaded_witness :
  ingest_docs Scenario.nothing_to_load
    "docs/empty.pdf" "vgpu" empty_heap
  = (Ok tt, mkHeap [CallLoader "docs/empty.pdf"] None).
Proof.
  apply (ingest_nothing_loaded
           Scenario.nothing_to_load
           "docs/empty.pdf" "vgpu" empty_heap eq_refl).
Defined.

Lemma ingest_docs_except_status (e : Exn) :
  exists message code,
    ingest_docs_except e = mkExn (APIError code) message
    /\ In code [504; 403; 404; 500]%Z.
Proof.
  unfold ingest_docs_except.
  destruct (exn_class e);
    try (do 2 eexists; split; [reflexivity | simpl; auto]);
    destruct (Py.contains "[403] Forbidden" (exn_str e)
              && Py.contains "Invalid UAM response" (exn_str e));
    try (do 2 eexists; split; [reflexivity | simpl; auto]);
    destruct (Py.contains "[404] Not Found" (exn_str e));
    do 2 eexists; (split; [reflexivity | simpl; auto 6]).
Qed.

(** X4: whatever the collaborators do, [ingest_docs] either returns or
    raises an [APIError] whose status is 504, 403, 404 or 500: no other
    exception and no other status leaves it.  When the splitter fails, the
    vector store is not opened. *)
Theorem ingest_raises_only_api_errors :
  forall w data_dir collection_name h,
    match fst (ingest_docs w data_dir collection_name h) with
    | Ok _ => True
    | Raise e => exists message code,
        e = mkExn (APIError code) message /\ In code [504; 403; 404; 500]%Z
    end
    /\ forall docs cause,
        load_documents w (trace h) data_dir = Ok docs ->
        split_documents w (CallLoader data_dir :: trace h) docs = Raise cause ->
        trace (snd (ingest_docs w data_dir collection_name h))
        = (if Py.truthy docs then [CallSplitter; CallLoader data_dir]
           else [CallLoader data_dir]) ++ trace h.
Proof.
  intros w data_dir c h. split.
  - unfold ingest_docs. rewrite run_try.
    destruct (ingest_docs_body w data_dir c h) as [[[] | e] h']; simpl; [exact I |].
    apply ingest_docs_except_status.
  - intros docs cause Hload Hsplit.
    unfold ingest_docs, ingest_docs_body. rewrite run_try, run_bind.
    unfold call at 1. rewrite Hload.
    destruct docs as [| d rest]; [reflexivity |].
    cbn [Py.truthy]. rewrite run_bind. unfold call at 1. cbn [trace].
    rewrite Hsplit. reflexivity.
Qed.

Lemma ingest_raises_only_api_errors_witness :
  trace (snd (ingest_docs
                Scenario.splitter_fails
                "docs/vgpu.pdf" "vgpu" empty_heap))
  = [CallSplitter; CallLoader "docs/vgpu.pdf"].
Proof.
  apply (proj2 (ingest_raises_only_api_errors Scenario.splitter_fails
                  "docs/vgpu.pdf" "vgpu" empty_heap)
           [Scenario.doc] (mkExn OtherException "tokenizer missing") eq_refl eq_refl).
Defined.

(* ===================================================================== *)
(** ** Further properties: [llm_chain] *)
(* ===================================================================== *)

Lemma prefix_app (a b : string) : String.prefix a (a ++ b) = true.
Proof.
  induction a as [| c a IH]; simpl.
  - destruct b; reflexivity.
  - destruct (Ascii.ascii_dec c c) as [_ | Hne]; [exact IH | contradiction].
Qed.

Lemma contains_prefix (a s : string) :
  String.prefix a s = true -> Py.contains a s = true.
Proof.
  intro H. destruct s as [| c s].
  - change (Py.contains a "") with (if String.prefix a "" then true else false).
    now rewrite H.
  - change (Py.contains a (String c s))
      with (if String.prefix a (String c s) then true else Py.contains a s).
    now rewrite H.
Qed.

Lemma contains_app_r (a x b : string) :
  Py.contains a b = true -> Py.contains a (x ++ b) = true.
Proof.
  intro H. induction x as [| c x IH]; [exact H |].
  change (Py.contains a (String c x ++ b))
    with (if String.prefix a (String c (x ++ b)) then true
          else Py.contains a (x ++ b)).
  rewrite IH. now destruct (String.prefix a (String c (x ++ b))).
Qed.

Lemma contains_middle (a x b : string) : Py.contains a (x ++ a ++ b) = true.
Proof. apply contains_app_r, contains_prefix, prefix_app. Qed.




(* ===================================================================== *)
(** ** Calls that a computation never makes *)
(* ===================================================================== *)

Section Quiet.

Variable f : Event -> bool.

Lemma quiet_ret {A : Type} (a : A) : quiet_for f (ret a).
Proof. intro h. reflexivity. Qed.

Lemma quiet_raise {A : Type} (e : Exn) : quiet_for f (@raise A e).
Proof. intro h. reflexivity. Qed.

Lemma quiet_lift {A : Type} (r : result A) : quiet_for f (lift r).
Proof. intro h. reflexivity. Qed.

Lemma quiet_call {A : Type} (ev : Event) (oracle : list Event -> result A) :
  f ev = false -> quiet_for f (call ev oracle).
Proof. intros Hev h. unfold call. simpl. now rewrite Hev. Qed.

Lemma quiet_bind {A B : Type} (m : M A) (k : A -> M B) :
  quiet_for f m -> (forall a, quiet_for f (k a)) -> quiet_for f (bind m k).
Proof.
  intros Hm Hk h. rewrite run_bind. specialize (Hm h).
  destruct (m h) as [[a | e] h']; simpl in *.
  - rewrite Hk. exact Hm.
  - exact Hm.
Qed.

Lemma quiet_try {A : Type} (body : M A) (handler : Exn -> M A) :
  quiet_for f body -> (forall e, quiet_for f (handler e)) ->
  quiet_for f (try_except body handler).
Proof.
  intros Hm Hk h. rewrite run_try. specialize (Hm h).
  destruct (body h) as [[a | e] h']; simpl in *.
  - exact Hm.
  - rewrite Hk. exact Hm.
Qed.

Lemma quiet_if {A : Type} (b : bool) (m1 m2 : M A) :
  quiet_for f m1 -> quiet_for f m2 -> quiet_for f (if b then m1 else m2).
Proof. destruct b; auto. Qed.

Lemma quiet_dumped_iter data : quiet_for f (dumped_iter data).
Proof. unfold dumped_iter. apply quiet_bind; [apply quiet_lift | intro; apply quiet_ret]. Qed.

Lemma quiet_llm_chain_except e : quiet_for f (llm_chain_except e).
Proof.
  intro h. destruct (llm_chain_except_returns e h) as [d Hd]. now rewrite Hd.
Qed.

Lemma quiet_rag_chain_except e : quiet_for f (rag_chain_except e).
Proof.
  intro h. destruct (rag_chain_except_returns e h) as [Hr | [Hr _]]; now rewrite Hr.
Qed.

Lemma quiet_rag_chain_with_multiturn_except e :
  quiet_for f (rag_chain_with_multiturn_except e).
Proof.
  intro h.
  destruct (rag_chain_with_multiturn_except_returns e h) as [Hr | [Hr _]];
    now rewrite Hr.
Qed.

End Quiet.

Create HintDb quiet.
#[local] Hint Resolve quiet_ret quiet_raise quiet_lift quiet_if quiet_dumped_iter
  quiet_llm_chain_except quiet_rag_chain_except quiet_rag_chain_with_multiturn_except
  : quiet.
#[local] Hint Extern 2 (quiet_for _ (bind _ _)) => apply quiet_bind; [ | intro ] : quiet.
#[local] Hint Extern 2 (quiet_for _ (try_except _ _)) => apply quiet_try; [ | intro ] : quiet.
#[local] Hint Extern 2 (quiet_for _ (call _ _)) => apply quiet_call; reflexivity : quiet.

Lemma quiet_open_generation f w kw rk vk c :
  f CallEmbeddingModel = false -> f (CallVectorstore c) = false ->
  f CallLLM = false -> f (CallRankingModel rk) = false ->
  quiet_for f (open_generation w kw rk vk c).
Proof.
  intros H1 H2 H3 H4. unfold open_generation.
  apply quiet_bind; [now apply quiet_call | intros _].
  apply quiet_bind; [now apply quiet_call | intro vs].
  apply quiet_if; [apply quiet_raise |].
  apply quiet_bind; [now apply quiet_call | intros _].
  apply quiet_bind; [now apply quiet_call | intro ranker]. apply quiet_ret.
Qed.

Lemma quiet_open_search f w kw rk vk c :
  f CallEmbeddingModel = false -> f (CallVectorstore c) = false ->
  f (CallRankingModel rk) = false ->
  quiet_for f (open_search w kw rk vk c).
Proof.
  intros H1 H2 H4. unfold open_search.
  apply quiet_bind; [now apply quiet_call | intros _].
  apply quiet_bind; [now apply quiet_call | intro vs].
  apply quiet_if; [apply quiet_raise |].
  apply quiet_bind; [now apply quiet_call | intro ranker]. apply quiet_ret.
Qed.

Lemma retrieve_context_without_reflection w env kw query ranker top_k :
  ENABLE_REFLECTION env = false ->
  retrieve_context w env kw query ranker top_k
  = if ranker && enable_reranker kw then
      bind (call (CallRetriever query top_k) (fun t => retriever_invoke w t query top_k))
           (fun docs =>
              bind (call (CallReranker query docs)
                         (fun t => compress_documents w t query docs))
                   (fun docs => ret (normalize_relevance_scores w docs)))
    else call (CallRetriever query top_k) (fun t => retriever_invoke w t query top_k).
Proof. intro Hoff. unfold retrieve_context. now rewrite Hoff. Qed.

Lemma rag_chain_answer_without_reflection w env message query docs context h :
  ENABLE_REFLECTION env = false ->
  rag_chain_answer w env message query docs context h
  = (Ok (RetPair (PyGenerator (stream_structured_rag_response message query docs))
                 context), h).
Proof.
  intro Hoff. unfold rag_chain_answer, reflection_budget_left. now rewrite Hoff.
Qed.

Lemma multiturn_answer_without_reflection w env message query docs context h :
  ENABLE_REFLECTION env = false ->
  multiturn_answer w env message query docs context h
  = (Ok (RetPair (PyGenerator (stream_structured_multiturn_response message query docs))
                 context), h).
Proof.
  intro Hoff. unfold multiturn_answer, reflection_budget_left. now rewrite Hoff.
Qed.

Lemma quiet_retrieve_context_generation w env kw query ranker top_k :
  ENABLE_REFLECTION env = false ->
  quiet_for is_generation_call (retrieve_context w env kw query ranker top_k).
Proof.
  intro Hoff. rewrite retrieve_context_without_reflection by assumption.
  auto 8 with quiet.
Qed.

(* ===================================================================== *)
(** ** Further properties: [rag_chain] *)
(* ===================================================================== *)

Lemma system_suffix_filter (h1 h2 : list Message) :
  filter (fun m => String.eqb (role m) "system") h1
  = filter (fun m => String.eqb (role m) "system") h2 ->
  system_suffix h1 = system_suffix h2.
Proof. intro H. unfold system_suffix. now rewrite H. Qed.

(** X7: without multiturn, [rag_chain] uses the chat history for its system
    turns only: two histories with the same system turns, in the same
    order, give the same calls and the same result, whatever user and
    assistant turns they hold. *)
Theorem rag_chain_ignores_conversation_turns :
  forall w env kw query history1 history2 reranker_top_k vdb_top_k collection_name h,
    ENABLE_MULTITURN env = false ->
    filter (fun m => String.eqb (role m) "system") history1
    = filter (fun m => String.eqb (role m) "system") history2 ->
    rag_chain w env kw query history1 reranker_top_k vdb_top_k collection_name h
    = rag_chain w env kw query history2 reranker_top_k vdb_top_k collection_name h.
Proof.
  intros w env kw query h1 h2 rk vk c h Hmulti Hsys.
  unfold rag_chain. rewrite Hmulti. unfold rag_chain_body, rag_chain_message.
  rewrite !fold_system_suffix, (system_suffix_filter h1 h2 Hsys). reflexivity.
Qed.

Lemma rag_chain_ignores_conversation_turns_witness :
  rag_chain Scenario.healthy Scenario.env_default Scenario.kw_plain "which profile?"
    [Scenario.user "which GPUs are supported?"; mkMessage "system" "Be brief.";
     Scenario.assistant "L40S"] 4 40 "" empty_heap
  = rag_chain Scenario.healthy Scenario.env_default Scenario.kw_plain "which profile?"
      [mkMessage "system" "Be brief."] 4 40 "" empty_heap.
Proof.
  apply rag_chain_ignores_conversation_turns; reflexivity.
Defined.

Lemma rag_chain_body_lazy_pair w env kw query history rk vk c :
  ENABLE_REFLECTION env = false ->
  hoare (fun _ => True) (rag_chain_body w env kw query history rk vk c)
    (fun r _ => match r with
                | Ok v => exists context,
                    v = RetPair (PyGenerator
                                   (stream_structured_rag_response
                                      (rag_chain_message w env kw history) query
                                      (map (format_document_with_source w) context)))
                                context
                | Raise _ => True
                end).
Proof.
  intro Hoff. unfold rag_chain_body. hoare_skip. destruct a as [ranker top_k].
  hoare_skip. intros h _.
  rewrite rag_chain_answer_without_reflection by assumption. simpl. eauto.
Qed.

Lemma quiet_rag_chain_generation w env kw query history rk vk c :
  ENABLE_REFLECTION env = false -> ENABLE_MULTITURN env = false ->
  quiet_for is_generation_call (rag_chain w env kw query history rk vk c).
Proof.
  intros Hoff Hmulti. unfold rag_chain. rewrite Hmulti.
  apply quiet_try; [| intro e; apply quiet_rag_chain_except].
  unfold rag_chain_body.
  apply quiet_bind; [now apply quiet_open_generation | intros [ranker top_k]].
  apply quiet_bind; [now apply quiet_retrieve_context_generation | intro ctx].
  intro h. now rewrite rag_chain_answer_without_reflection.
Qed.

(** X8: without reflection and multiturn, [rag_chain] returns before the
    answer chain is invoked: no generation call is made during the call,
    however it ends.  What it returns from its body is the context list
    together with a lazy stream over the prompt, the caller's query and
    exactly the documents of that list, formatted; the chain is invoked
    when the stream is iterated. *)
Theorem rag_chain_answers_lazily :
  forall w env kw query history reranker_top_k vdb_top_k collection_name h,
    ENABLE_REFLECTION env = false ->
    ENABLE_MULTITURN env = false ->
    generation_calls
      (trace (snd (rag_chain w env kw query history
                     reranker_top_k vdb_top_k collection_name h)))
    = generation_calls (trace h)
    /\ match fst (rag_chain_body w env kw query history
                    reranker_top_k vdb_top_k collection_name h) with
       | Ok v => exists context,
           v = RetPair (PyGenerator
                          (stream_structured_rag_response
                             (rag_chain_message w env kw history) query
                             (map (format_document_with_source w) context)))
                       context
           /\ fst (rag_chain w env kw query history
                     reranker_top_k vdb_top_k collection_name h) = Ok v
       | Raise _ => True
       end.
Proof.
  intros w env kw query history rk vk c h Hoff Hmulti. split.
  - exact (quiet_rag_chain_generation w env kw query history rk vk c Hoff Hmulti h).
  - pose proof (rag_chain_body_lazy_pair w env kw query history rk vk c Hoff h I) as H.
    unfold rag_chain. rewrite Hmulti, run_try.
    destruct (rag_chain_body w env kw query history rk vk c h) as [[v | e] h'];
      simpl in *; [| exact I].
    destruct H as [context Hv]. exists context. split; [exact Hv | reflexivity].
Qed.

Lemma rag_chain_answers_lazily_witness :
  generation_calls
    (trace (snd (rag_chain Scenario.healthy Scenario.env_default Scenario.kw_plain
                   "which profile?" [] 4 40 "" empty_heap)))
  = [].
Proof.
  apply (proj1 (rag_chain_answers_lazily Scenario.healthy Scenario.env_default
                  Scenario.kw_plain "which profile?" [] 4 40 "" empty_heap
                  eq_refl eq_refl)).
Defined.

(* ===================================================================== *)
(** ** Further properties: [document_search] *)
(* ===================================================================== *)

Lemma search_documents_without_reflection w env kw content retriever_query ranker top_k :
  ENABLE_REFLECTION env = false ->
  search_documents w env kw content retriever_query ranker top_k
  = if ranker && enable_reranker kw then
      bind (call (CallRetriever retriever_query top_k)
                 (fun t => retriever_invoke w t retriever_query top_k))
           (fun docs =>
              bind (call (CallReranker retriever_query docs)
                         (fun t => compress_documents w t retriever_query docs))
                   (fun docs => ret (normalize_relevance_scores w docs)))
    else call (CallRetriever retriever_query top_k)
              (fun t => retriever_invoke w t retriever_query top_k).
Proof. intro Hoff. unfold search_documents. now rewrite Hoff. Qed.

Lemma quiet_search_retriever_query f w env kw content messages :
  (forall ch q, f (CallQueryRewriter ch q) = false) ->
  quiet_for f (search_retriever_query w env kw content messages).
Proof.
  intro Hf. unfold search_retriever_query, rewrite_query.
  repeat (apply quiet_if); try apply quiet_ret.
  apply quiet_bind; [apply quiet_call, Hf | intro q].
  apply quiet_if; apply quiet_ret.
Qed.

Lemma quiet_document_search f w env kw content messages rk vk c :
  ENABLE_REFLECTION env = false ->
  f CallEmbeddingModel = false -> f (CallVectorstore c) = false ->
  f (CallRankingModel rk) = false ->
  (forall ch q, f (CallQueryRewriter ch q) = false) ->
  (forall q k, f (CallRetriever q k) = false) ->
  (enable_reranker kw = true -> forall q docs, f (CallReranker q docs) = false) ->
  quiet_for f (document_search w env kw content messages rk vk c).
Proof.
  intros Hoff H1 H2 H3 H4 H5 H6. unfold document_search.
  apply quiet_try; [| intro e; apply quiet_raise].
  unfold document_search_body.
  apply quiet_bind; [now apply quiet_open_search | intros [ranker top_k]].
  apply quiet_bind; [now apply quiet_search_retriever_query | intros [q |]];
    [| apply quiet_ret].
  rewrite search_documents_without_reflection by assumption.
  destruct (enable_reranker kw) eqn:Hrr.
  - apply quiet_if.
    + apply quiet_bind; [apply quiet_call, H5 | intro docs].
      apply quiet_bind; [apply quiet_call, H6; reflexivity | intro ranked].
      apply quiet_ret.
    + apply quiet_call, H5.
  - rewrite andb_false_r. apply quiet_call, H5.
Qed.

(** X9: without reflection, [document_search] never obtains the language
    model and never invokes the answer chain, a judge or a regeneration,
    however it ends; and when [enable_reranker] is off it never calls the
    reranker. *)
Theorem document_search_never_generates :
  forall w env kw content messages reranker_top_k vdb_top_k collection_name h,
    ENABLE_REFLECTION env = false ->
    let after := trace (snd (document_search w env kw content messages
                               reranker_top_k vdb_top_k collection_name h)) in
    filter is_llm_call after = filter is_llm_call (trace h)
    /\ generation_calls after = generation_calls (trace h)
    /\ (enable_reranker kw = false ->
        filter is_reranker_call after = filter is_reranker_call (trace h)).
Proof.
  intros w env kw content messages rk vk c h Hoff after. subst after.
  split; [| split].
  - apply (quiet_document_search is_llm_call); auto.
  - apply (quiet_document_search is_generation_call); auto.
  - intro Hrr. apply (quiet_document_search is_reranker_call); auto.
    intro Hcontra. congruence.
Qed.

Lemma document_search_never_generates_witness :
  filter is_llm_call
    (trace (snd (document_search Scenario.search_fails Scenario.env_default
                   Scenario.kw_plain "which profile?"
                   [Scenario.user "which GPUs are supported?"] 4 40 "" empty_heap)))
  = [].
Proof.
  apply (proj1 (document_search_never_generates Scenario.search_fails
                  Scenario.env_default Scenario.kw_plain "which profile?"
                  [Scenario.user "which GPUs are supported?"] 4 40 "" empty_heap
                  eq_refl)).
Defined.

Lemma open_search_top_k w kw rk vk c h ranker top_k h1 :
  open_search w kw rk vk c h = (Ok (ranker, top_k), h1) ->
  top_k = (if ranker && enable_reranker kw then vk else rk)
  /\ reflection_counter h1 = reflection_counter h.
Proof.
  unfold open_search. rewrite run_bind. unfold call at 1.
  destruct (get_embedding_model w (trace h)); [| discriminate].
  rewrite run_bind. unfold call at 1. simpl trace.
  destruct (get_vectorstore w _ c) as [[|] |]; simpl; try discriminate.
  rewrite run_bind. unfold call at 1. simpl.
  destruct (get_ranking_model w _ rk); simpl; [| discriminate].
  intro H. inversion H. subst. split; reflexivity.
Qed.

Lemma open_generation_top_k w kw rk vk c h ranker top_k h1 :
  open_generation w kw rk vk c h = (Ok (ranker, top_k), h1) ->
  top_k = (if ranker && enable_reranker kw then vk else rk)
  /\ reflection_counter h1 = reflection_counter h.
Proof.
  unfold open_generation. rewrite run_bind. unfold call at 1.
  destruct (get_embedding_model w (trace h)); [| discriminate].
  rewrite run_bind. unfold call at 1. simpl trace.
  destruct (get_vectorstore w _ c) as [[|] |]; simpl; try discriminate.
  rewrite run_bind. unfold call at 1. simpl.
  destruct (get_llm w _); simpl; [| discriminate].
  rewrite run_bind. unfold call at 1. simpl.
  destruct (get_ranking_model w _ rk); simpl; [| discriminate].
  intro H. inversion H. subst. split; reflexivity.
Qed.

(** X10: without reflection and with [enable_reranker] off, the number of
    documents [document_search] asks the retriever for is [reranker_top_k]
    ([vdb_top_k] plays no part), the retriever is asked once, with the
    formulated query, and its documents are returned as they are. *)
Theorem search_without_reranking :
  forall w env kw content messages reranker_top_k vdb_top_k collection_name
         h ranker top_k h1 retriever_query h2 docs,
    ENABLE_REFLECTION env = false ->
    enable_reranker kw = false ->
    open_search w kw reranker_top_k vdb_top_k collection_name h
    = (Ok (ranker, top_k), h1) ->
    search_retriever_query w env kw content messages h1
    = (Ok (Some retriever_query), h2) ->
    retriever_invoke w (trace h2) retriever_query reranker_top_k = Ok docs ->
    document_search w env kw content messages reranker_top_k vdb_top_k collection_name h
    = (Ok docs,
       mkHeap (CallRetriever retriever_query reranker_top_k :: trace h2)
              (reflection_counter h2)).
Proof.
  intros w env kw content messages rk vk c h ranker top_k h1 q h2 docs
         Hoff Hrr Hopen Hquery Hretrieve.
  destruct (open_search_top_k _ _ _ _ _ _ _ _ _ Hopen) as [Hk _].
  rewrite Hrr, andb_false_r in Hk. subst top_k.
  unfold document_search. rewrite run_try.
  unfold document_search_body. rewrite run_bind, Hopen, run_bind, Hquery.
  rewrite search_documents_without_reflection by assumption.
  rewrite Hrr, andb_false_r. unfold call. rewrite Hretrieve. reflexivity.
Qed.

Lemma search_without_reranking_witness :
  document_search Scenario.healthy Scenario.env_default Scenario.kw_plain "c"
    [Scenario.user "a"] 4 40 "vgpu" empty_heap
  = (Ok [Scenario.doc],
     mkHeap [CallRetriever "a. c" 4; CallRankingModel 4; CallVectorstore "vgpu";
             CallEmbeddingModel] None).
Proof.
  apply (search_without_reranking Scenario.healthy Scenario.env_default
           Scenario.kw_plain "c" [Scenario.user "a"] 4 40 "vgpu" empty_heap
           true 4%Z
           (mkHeap [CallRankingModel 4; CallVectorstore "vgpu"; CallEmbeddingModel] None)
           "a. c"
           (mkHeap [CallRankingModel 4; CallVectorstore "vgpu"; CallEmbeddingModel] None)
           [Scenario.doc] eq_refl eq_refl eq_refl eq_refl eq_refl).
Defined.

(** X11: without reflection, with [enable_reranker] on and a ranker present,
    [document_search] asks the retriever for [vdb_top_k] documents, hands
    them with the formulated query to the reranker, and returns the
    reranked list with its scores normalized. *)
Theorem search_with_reranking :
  forall w env kw content messages reranker_top_k vdb_top_k collection_name
         h top_k h1 retriever_query h2 docs ranked,
    ENABLE_REFLECTION env = false ->
    enable_reranker kw = true ->
    open_search w kw reranker_top_k vdb_top_k collection_name h
    = (Ok (true, top_k), h1) ->
    search_retriever_query w env kw content messages h1
    = (Ok (Some retriever_query), h2) ->
    retriever_invoke w (trace h2) retriever_query vdb_top_k = Ok docs ->
    compress_documents w (CallRetriever retriever_query vdb_top_k :: trace h2)
      retriever_query docs = Ok ranked ->
    document_search w env kw content messages reranker_top_k vdb_top_k collection_name h
    = (Ok (normalize_relevance_scores w ranked),
       mkHeap (CallReranker retriever_query docs
               :: CallRetriever retriever_query vdb_top_k :: trace h2)
              (reflection_counter h2)).
Proof.
  intros w env kw content messages rk vk c h top_k h1 q h2 docs ranked
         Hoff Hrr Hopen Hquery Hretrieve Hrank.
  destruct (open_search_top_k _ _ _ _ _ _ _ _ _ Hopen) as [Hk _].
  rewrite Hrr in Hk. simpl in Hk. subst top_k.
  unfold document_search. rewrite run_try.
  unfold document_search_body. rewrite run_bind, Hopen, run_bind, Hquery.
  rewrite search_documents_without_reflection by assumption.
  rewrite Hrr. cbn [andb]. rewrite run_bind. unfold call at 1. rewrite Hretrieve.
  rewrite run_bind. unfold call at 1. cbn [trace]. rewrite Hrank. reflexivity.
Qed.

Lemma search_with_reranking_witness :
  document_search Scenario.healthy Scenario.env_default
    (mkKwargs "meta/llama-3.1-8b-instruct" true false) "c" [] 4 40 "vgpu" empty_heap
  = (Ok [Scenario.doc],
     mkHeap [CallReranker "c" [Scenario.doc]; CallRetriever "c" 40;
             CallRankingModel 4; CallVectorstore "vgpu"; CallEmbeddingModel] None).
Proof.
  apply (search_with_reranking Scenario.healthy Scenario.env_default
           (mkKwargs "meta/llama-3.1-8b-instruct" true false) "c" [] 4 40 "vgpu"
           empty_heap 40%Z
           (mkHeap [CallRankingModel 4; CallVectorstore "vgpu"; CallEmbeddingModel] None)
           "c"
           (mkHeap [CallRankingModel 4; CallVectorstore "vgpu"; CallEmbeddingModel] None)
           [Scenario.doc] [Scenario.doc]
           eq_refl eq_refl eq_refl eq_refl eq_refl eq_refl).
Defined.

(* ===================================================================== *)
(** ** Further properties: [rag_chain_with_multiturn] *)
(* ===================================================================== *)



(* ===================================================================== *)
(** ** Further properties: the streams *)
(* ===================================================================== *)

(** X13: iterating a returned generator never raises: it invokes the chain
    exactly once and yields exactly one serialized response.  That response
    is the chain's answer, unchanged, when the chain answers.  When the chain
    fails, the generators of [llm_chain] and [rag_chain] yield an error
    response whose description quotes the failure, and the generator of
    [rag_chain_with_multiturn] yields the response with the default
    description. *)
Theorem iteration_invokes_the_chain_once :
  forall w g h,
    exists sr message query docs,
      run_generator w g h
      = (Ok [Dumped sr],
         mkHeap (CallChain message query docs :: trace h) (reflection_counter h))
      /\ match chain_invoke w (trace h) message query docs with
         | Ok answer => sr = answer
         | Raise e =>
             match g with
             | stream_structured_multiturn_response _ _ _ => sr = default_response
             | _ => Py.contains (exn_str e) (description sr) = true
             end
         end.
Proof.
  intros w g h.
  destruct g as [message query | message query docs | message query docs].
  - destruct (chain_invoke w (trace h) message query []) as [answer | e] eqn:Hchain.
    + exists answer, message, query, []. split.
      * unfold run_generator. rewrite run_try, run_bind. unfold call.
        rewrite Hchain. reflexivity.
      * now rewrite Hchain.
    + exists (mkStructuredResponse Schema.default_title
                ("Error generating vGPU configuration: " ++ exn_str e
                 ++ ". Unable to provide recommendation.")
                Schema.default_parameters), message, query, []. split.
      * unfold run_generator. rewrite run_try, run_bind. unfold call.
        rewrite Hchain. reflexivity.
      * rewrite Hchain. exact (contains_middle (exn_str e) _ _).
  - destruct (chain_invoke w (trace h) message query docs) as [answer | e] eqn:Hchain.
    + exists answer, message, query, docs. split.
      * unfold run_generator. rewrite run_try, run_bind. unfold call.
        rewrite Hchain. reflexivity.
      * now rewrite Hchain.
    + exists (mkStructuredResponse Schema.default_title
                ("Error generating RAG vGPU configuration: " ++ exn_str e
                 ++ ". Unable to provide recommendation.")
                Schema.default_parameters), message, query, docs. split.
      * unfold run_generator. rewrite run_try, run_bind. unfold call.
        rewrite Hchain. reflexivity.
      * rewrite Hchain. exact (contains_middle (exn_str e) _ _).
  - destruct (chain_invoke w (trace h) message query docs) as [answer | e] eqn:Hchain.
    + exists answer, message, query, docs. split.
      * unfold run_generator. rewrite run_try, run_bind. unfold call.
        rewrite Hchain. reflexivity.
      * now rewrite Hchain.
    + exists default_response, message, query, docs. split.
      * unfold run_generator. rewrite run_try, run_bind. unfold call.
        rewrite Hchain. reflexivity.
      * now rewrite Hchain.
Qed.

(* ===================================================================== *)
(** ** Further properties: query formulation and the history window *)
(* ===================================================================== *)

Lemma replace_quote_char (c : ascii) :
  (if Ascii.eqb c Py.dquote then Py.squote else c) = Py.squote <-> is_quote c = true.
Proof.
  unfold is_quote. destruct (Ascii.eqb_spec c Py.dquote) as [-> | Hd]; simpl.
  - split; reflexivity.
  - rewrite Ascii.eqb_eq. reflexivity.
Qed.

(** X14: the rewritten queries that stop the pipeline are exactly the empty
    string and the two-character strings made of quote characters, single
    or double in any combination; every other text, a lone quote or a
    quoted word included, goes on to retrieval. *)
Theorem no_actionable_query_exactly :
  forall q,
    no_actionable_query q = true
    <-> q = ""
        \/ exists c1 c2, q = String c1 (String c2 "")
                         /\ is_quote c1 = true /\ is_quote c2 = true.
Proof.
  intro q. rewrite no_actionable_query_iff. split.
  - intros [-> | H]; [now left |]. right.
    destruct q as [| c1 [| c2 [| c3 rest]]]; simpl in H; try discriminate.
    exists c1, c2. split; [reflexivity |].
    injection H as H1 H2.
    split; apply replace_quote_char; assumption.
  - intros [-> | (c1 & c2 & -> & H1 & H2)]; [now left |]. right. simpl.
    apply replace_quote_char in H1, H2. now rewrite H1, H2.
Qed.

Lemma no_actionable_query_exactly_witness :
  no_actionable_query (String Py.squote (String Py.dquote "")) = true.
Proof.
  apply (proj2 (no_actionable_query_exactly (String Py.squote (String Py.dquote "")))).
  right. exists Py.squote, Py.dquote. repeat split; reflexivity.
Defined.

Lemma skipn_min {A : Type} (n : nat) (l : list A) :
  skipn (Nat.min n (List.length l)) l = skipn n l.
Proof.
  destruct (Nat.le_ge_cases n (List.length l)) as [H | H].
  - now rewrite Nat.min_l.
  - rewrite Nat.min_r by assumption.
    rewrite skipn_all. symmetry. now apply skipn_all2.
Qed.

(** X15: a turn count that is not positive does not empty the history.  A
    count of zero keeps the whole history; a negative count [-n] drops the
    first [2 * n] messages and keeps the rest. *)
Theorem history_window_without_positive_turns :
  forall env history,
    (CONVERSATION_HISTORY env <= 0)%Z ->
    history_window env history
    = skipn (Z.to_nat (-2 * CONVERSATION_HISTORY env)) history
    /\ (CONVERSATION_HISTORY env = 0%Z -> history_window env history = history).
Proof.
  intros env history HK.
  assert (Hwin : history_window env history
                 = skipn (Z.to_nat (-2 * CONVERSATION_HISTORY env)) history).
  { unfold history_window, Py.slice_from, Py.len.
    destruct (CONVERSATION_HISTORY env * 2 * -1 <? 0)%Z eqn:E.
    - apply Z.ltb_lt in E. lia.
    - rewrite <- (skipn_min (Z.to_nat (-2 * CONVERSATION_HISTORY env)) history).
      f_equal. lia. }
  split; [exact Hwin |].
  intro H0. rewrite Hwin, H0. reflexivity.
Qed.

Lemma history_window_without_positive_turns_witness :
  history_window (Scenario.env_multiturn (-1))
    [Scenario.user "a"; Scenario.assistant "x"; Scenario.user "b"]
  = [Scenario.user "b"].
Proof.
  rewrite (proj1 (history_window_without_positive_turns (Scenario.env_multiturn (-1))
                    [Scenario.user "a"; Scenario.assistant "x"; Scenario.user "b"]
                    ltac:(simpl; lia))).
  reflexivity.
Defined.

(** X16: whatever the turn count, the window is a suffix of the history:
    only leading messages are dropped, order is kept, and the user turns of
    the window are the last user turns of the history. *)
Theorem history_window_is_a_suffix :
  forall env history,
    exists dropped,
      history = dropped ++ history_window env history
      /\ user_queries history
         = user_queries dropped ++ user_queries (history_window env history).
Proof.
  intros env history. unfold history_window, Py.slice_from.
  set (n := Z.to_nat _).
  exists (firstn n history).
  assert (H : history = firstn n history ++ skipn n history)
    by (symmetry; apply firstn_skipn).
  split; [exact H |].
  rewrite <- user_queries_app, <- H. reflexivity.
Qed.

Lemma concat_cons_nonempty (sep x : string) (xs : list string) :
  xs <> [] -> String.concat sep (x :: xs) = (x ++ sep ++ String.concat sep xs)%string.
Proof. destruct xs; [congruence | reflexivity]. Qed.

Lemma join_ends_with (sep q : string) (parts : list string) :
  exists before, Py.join sep (parts ++ [q]) = (before ++ q)%string.
Proof.
  unfold Py.join. induction parts as [| x rest [before IH]].
  - exists "". reflexivity.
  - change ((x :: rest) ++ [q]) with (x :: (rest ++ [q])).
    rewrite concat_cons_nonempty by (destruct rest; discriminate).
    rewrite IH. exists (x ++ sep ++ before)%string.
    now rewrite !append_assoc.
Qed.

(** X17: the combined retrieval query always ends with the current query,
    and a history that holds no user turn (only system and assistant turns)
    leaves the query as it is. *)
Theorem combined_query_ends_with_the_query :
  forall history query,
    (exists before, combined_query history query = (before ++ query)%string)
    /\ combined_query
         (filter (fun m => negb (String.eqb (role m) "user")) history) query
       = query.
Proof.
  intros history query. split.
  - unfold combined_query. apply join_ends_with.
  - unfold combined_query, user_queries.
    replace (filter (fun msg => String.eqb (role msg) "user")
               (filter (fun m => negb (String.eqb (role m) "user")) history))
      with (@nil Message); [reflexivity |].
    induction history as [| m rest IH]; [reflexivity |].
    simpl. destruct (String.eqb (role m) "user") eqn:E; simpl; [exact IH |].
    now rewrite E.
Qed.

(* ===================================================================== *)
(** ** Further properties: answers and reflection *)
(* ===================================================================== *)

Lemma quiet_multiturn_retriever_query f w kw query history ch :
  (forall c q, f (CallQueryRewriter c q) = false) ->
  quiet_for f (multiturn_retriever_query w kw query history ch).
Proof.
  intro Hf. unfold multiturn_retriever_query, rewrite_query.
  repeat (apply quiet_if); try apply quiet_ret.
  apply quiet_bind; [apply quiet_call, Hf | intro q].
  apply quiet_if; apply quiet_ret.
Qed.

Lemma rag_chain_with_multiturn_body_lazy_pair w env kw query history rk vk c :
  ENABLE_REFLECTION env = false ->
  hoare (fun _ => True) (rag_chain_with_multiturn_body w env kw query history rk vk c)
    (fun r _ => match r with
                | Ok v =>
                    v = RetStream (PyIter [Text ""])
                    \/ exists context,
                      v = RetPair (PyGenerator
                                     (stream_structured_multiturn_response
                                        (multiturn_message w env kw
                                           (history_window env history))
                                        query
                                        (map (format_document_with_source w) context)))
                                  context
                | Raise _ => True
                end).
Proof.
  intro Hoff. unfold rag_chain_with_multiturn_body.
  hoare_skip. destruct a as [ranker top_k].
  destruct (multiturn_prompt_parts w env kw (history_window env history))
    as [[system_message conversation_history] user_message].
  hoare_skip. destruct a as [retriever_query |].
  - hoare_skip. intros h _.
    rewrite multiturn_answer_without_reflection by assumption. simpl. eauto.
  - apply hoare_ret. auto.
Qed.

(** X18: without reflection, [rag_chain_with_multiturn] returns before the
    answer chain is invoked, however it ends; a result of its body is the
    bare empty-string stream of the short circuit, or the context list with
    a lazy stream over the prompt built from the history window, the
    caller's query and exactly the documents of that list, formatted. *)
Theorem multiturn_answers_lazily :
  forall w env kw query history reranker_top_k vdb_top_k collection_name h,
    ENABLE_REFLECTION env = false ->
    generation_calls
      (trace (snd (rag_chain_with_multiturn w env kw query history
                     reranker_top_k vdb_top_k collection_name h)))
    = generation_calls (trace h)
    /\ match fst (rag_chain_with_multiturn_body w env kw query history
                    reranker_top_k vdb_top_k collection_name h) with
       | Ok v =>
           v = RetStream (PyIter [Text ""])
           \/ exists context,
             v = RetPair (PyGenerator
                            (stream_structured_multiturn_response
                               (multiturn_message w env kw (history_window env history))
                               query (map (format_document_with_source w) context)))
                         context
       | Raise _ => True
       end.
Proof.
  intros w env kw query history rk vk c h Hoff. split.
  - revert h. change (quiet_for is_generation_call
                        (rag_chain_with_multiturn w env kw query history rk vk c)).
    unfold rag_chain_with_multiturn.
    apply quiet_try; [| intro e; apply quiet_rag_chain_with_multiturn_except].
    unfold rag_chain_with_multiturn_body.
    apply quiet_bind; [now apply quiet_open_generation | intros [ranker top_k]].
    destruct (multiturn_prompt_parts w env kw (history_window env history))
      as [[system_message conversation_history] user_message].
    apply quiet_bind;
      [now apply quiet_multiturn_retriever_query | intros [retriever_query |]];
      [| apply quiet_ret].
    apply quiet_bind; [now apply quiet_retrieve_context_generation | intro ctx].
    intro h. now rewrite multiturn_answer_without_reflection.
  - exact (rag_chain_with_multiturn_body_lazy_pair w env kw query history rk vk c
             Hoff h I).
Qed.

Lemma multiturn_answers_lazily_witness :
  generation_calls
    (trace (snd (rag_chain_with_multiturn Scenario.healthy (Scenario.env_multiturn 15)
                   Scenario.kw_plain "which profile?"
                   [Scenario.user "which GPUs are supported?"] 4 40 "" empty_heap)))
  = [].
Proof.
  apply (proj1 (multiturn_answers_lazily Scenario.healthy (Scenario.env_multiturn 15)
                  Scenario.kw_plain "which profile?"
                  [Scenario.user "which GPUs are supported?"] 4 40 "" empty_heap
                  eq_refl)).
Defined.

Lemma multiturn_answer_results w env message query docs context :
  hoare (fun _ => True) (multiturn_answer w env message query docs context)
    (fun r _ => match r with
                | Ok v =>
                    v = RetPair (PyGenerator
                                   (stream_structured_multiturn_response message query docs))
                                context
                    \/ v = RetPair (PyIter [Dumped default_response]) context
                | Raise _ => True
                end).
Proof.
  unfold multiturn_answer. hoare_skip. destruct a.
  - hoare_skip. hoare_skip. destruct a0 as [final_response is_grounded].
    intros h1 _. rewrite run_bind, dumped_iter_response_reasoning. simpl. now right.
  - apply hoare_ret. intros. now left.
Qed.

Lemma rag_chain_answer_results w env message query docs context :
  hoare (fun _ => True) (rag_chain_answer w env message query docs context)
    (fun r _ => match r with
                | Ok v =>
                    v = RetPair (PyGenerator
                                   (stream_structured_rag_response message query docs))
                                context
                    \/ exists final_response,
                      v = RetPair
                            (PyIter [Dumped
                               (mkStructuredResponse Schema.default_title
                                  ("vGPU configuration generated with reflection and grounding checks: "
                                   ++ final_response)
                                  Schema.default_parameters)])
                            context
                | Raise _ => True
                end).
Proof.
  unfold rag_chain_answer. hoare_skip. destruct a.
  - hoare_skip. hoare_skip. destruct a0 as [final_response is_grounded].
    intros h1 _. rewrite run_bind, dumped_iter_description. simpl. right.
    exists final_response. reflexivity.
  - apply hoare_ret. intros. now left.
Qed.


(** X20: with reflection on and query rewriting off, [document_search]
    ignores the conversation: the relevance check is given the raw query,
    so the calls and the result are those of a search without history. *)
Theorem reflective_search_ignores_history :
  forall w env kw content messages reranker_top_k vdb_top_k collection_name h,
    ENABLE_REFLECTION env = true ->
    enable_query_rewriting kw = false ->
    document_search w env kw content messages reranker_top_k vdb_top_k collection_name h
    = document_search w env kw content [] reranker_top_k vdb_top_k collection_name h.
Proof.
  intros w env kw content messages rk vk c h Hon Hrw.
  unfold document_search, document_search_body, search_retriever_query,
    search_documents.
  rewrite Hon, Hrw. destruct messages; reflexivity.
Qed.

Lemma reflective_search_ignores_history_witness :
  document_search Scenario.healthy Scenario.env_reflection Scenario.kw_plain "c"
    [Scenario.user "a"; Scenario.assistant "x"; Scenario.user "b"] 4 40 "" empty_heap
  = document_search Scenario.healthy Scenario.env_reflection Scenario.kw_plain "c"
      [] 4 40 "" empty_heap.
Proof.
  apply reflective_search_ignores_history; reflexivity.
Defined.
